(** * chidb B-tree file engine

    A shallow embedding of [src/libchidb/btree.c]: the file header, the node
    view of a page, the cell view, cell insertion, search, and the insert
    entry points, with the properties of the engine stated over them.

    Integers of the C code are [Z] with the wrap-around written where the C
    code truncates; a page buffer is a [list Z] of bytes, and a pointer into
    a buffer is the pair of the buffer and a byte offset. *)

From Stdlib Require Import String Ascii.
From stdpp Require Import base numbers list.

Local Open Scope Z_scope.

(** ** Return codes *)

(** Modelled from the spec: the [CHIDB_*] codes of chidbInt.h, which is not
    among the sources; section 7 of the specification lists the kinds.
    btree.c only stores them and compares them with [CHIDB_OK], so they are
    an enumeration here. [CHIDB_NOHEADER] is what the pager answers when the
    file is shorter than a header. *)
Inductive rc : Set :=
  | CHIDB_OK
  | CHIDB_ECORRUPTHEADER
  | CHIDB_EPAGENO
  | CHIDB_ECELLNO
  | CHIDB_ENOTFOUND
  | CHIDB_EDUPLICATE
  | CHIDB_EEMPTY
  | CHIDB_ENOMEM
  | CHIDB_EIO
  | CHIDB_NOHEADER.

#[global] Instance rc_eq_dec : EqDecision rc.
Proof. solve_decision. Defined.

(** ** Byte buffers *)

(** [rd d i] is [d[i]]; [wr d i v] is [d[i] = v]. Outside the buffer the C
    code has no defined behaviour: the model reads 0 and drops the write. *)
Definition rd (d : list Z) (i : Z) : Z :=
  if 0 <=? i then default 0 (d !! Z.to_nat i) else 0.

Definition wr (d : list Z) (i : Z) (v : Z) : list Z :=
  if 0 <=? i then <[Z.to_nat i := v]> d else d.

Fixpoint write_bytes (d : list Z) (p : Z) (bs : list Z) : list Z :=
  match bs with
  | [] => d
  | b :: bs' => write_bytes (wr d p b) (p + 1) bs'
  end.

Definition read_bytes (d : list Z) (p : Z) (n : nat) : list Z :=
  map (fun k => rd d (p + Z.of_nat k)) (seq 0 n).

(** [memmove(d + dst, d + src, n)]: the source bytes are read before any is
    written, so overlapping ranges are safe. *)
Definition memmove (d : list Z) (dst src : Z) (n : Z) : list Z :=
  write_bytes d dst (read_bytes d src (Z.to_nat n)).

(** The bytes of a C string literal, without its terminating zero. *)
Definition c_str (s : string) : list Z :=
  map (fun c => Z.of_N (N_of_ascii c)) (list_ascii_of_string s).

(** [strncpy(d + p, s, n)]: the characters of [s], then zero bytes up to
    [n] in all. *)
Definition strncpy (d : list Z) (p : Z) (s : list Z) (n : nat) : list Z :=
  write_bytes d p (take n (s ++ replicate n 0)).

(** [strncmp(d + p, s, n)]: compares at most [n] characters and stops after
    a zero byte; [s] ends where its list ends. *)
Fixpoint strncmp (d : list Z) (p : Z) (s : list Z) (n : nat) : Z :=
  match n with
  | O => 0
  | S n' =>
      let a := rd d p in
      let b := hd 0 s in
      if a =? b
      then if a =? 0 then 0 else strncmp d (p + 1) (tl s) n'
      else a - b
  end.

(** ** Binary primitives (util.c) *)

(** Modelled from the spec: [get2byte], [put2byte], [get4byte], [put4byte]
    of util.c, which is not among the sources; section 4.A: big-endian
    encode and decode of 16-bit and 32-bit unsigned integers at a byte
    offset. *)
Definition get2byte (d : list Z) (p : Z) : Z :=
  rd d p * 256 + rd d (p + 1).

Definition put2byte (d : list Z) (p : Z) (v : Z) : list Z :=
  wr (wr d p (v / 256 mod 256)) (p + 1) (v mod 256).

Definition get4byte (d : list Z) (p : Z) : Z :=
  ((rd d p * 256 + rd d (p + 1)) * 256 + rd d (p + 2)) * 256 + rd d (p + 3).

Definition put4byte (d : list Z) (p : Z) (v : Z) : list Z :=
  wr (wr (wr (wr d p (v / 16777216 mod 256))
             (p + 1) (v / 65536 mod 256))
         (p + 2) (v / 256 mod 256))
     (p + 3) (v mod 256).

(** Modelled from the spec: [putVarint32] and [getVarint32] of util.c, which
    is not among the sources; section 4.A: the 7-bit continuation encoding
    (high bit set = more bytes follow), at most 4 bytes, the minimal
    representation is written and the number of bytes is returned; a value
    that needs more is an overflow error ([None]) and nothing is written or
    returned. btree.c ignores the returned status. *)
Definition putVarint32 (d : list Z) (p : Z) (v : Z) : option (list Z * Z) :=
  if v <? 0 then None
  else if v <? 128 then
    Some (wr d p v, 1)
  else if v <? 16384 then
    Some (write_bytes d p [128 + v / 128; v mod 128], 2)
  else if v <? 2097152 then
    Some (write_bytes d p
            [128 + v / 16384; 128 + v / 128 mod 128; v mod 128], 3)
  else if v <? 268435456 then
    Some (write_bytes d p
            [128 + v / 2097152; 128 + v / 16384 mod 128;
             128 + v / 128 mod 128; v mod 128], 4)
  else None.

Definition getVarint32 (d : list Z) (p : Z) : option (Z * Z) :=
  let b0 := rd d p in
  if b0 <? 128 then Some (b0, 1)
  else
    let b1 := rd d (p + 1) in
    if b1 <? 128 then Some (b0 mod 128 * 128 + b1, 2)
    else
      let b2 := rd d (p + 2) in
      if b2 <? 128 then Some ((b0 mod 128 * 128 + b1 mod 128) * 128 + b2, 3)
      else
        let b3 := rd d (p + 3) in
        if b3 <? 128
        then Some (((b0 mod 128 * 128 + b1 mod 128) * 128 + b2 mod 128) * 128
                   + b3, 4)
        else None.

(** A status that the caller ignores: the buffer is the written one when the
    call succeeded and the old one otherwise. *)
Definition put_ignoring_rc (d : list Z) (r : option (list Z * Z)) : list Z :=
  match r with
  | Some (d', _) => d'
  | None => d
  end.

(** ** Page layout constants (btree.h) *)

(** The masks btree.c defines itself. *)
Definition CHIDB_FILE_HEADER_LEN : Z := 100.
Definition FLAG_TABLE : Z := Z.lor 1 4.
Definition FLAG_INDEX : Z := 2.
Definition FLAG_LEAF : Z := 8.

(** Modelled from the spec: the four page type codes of btree.h, which is
    not among the sources. Scenario 1 of section 8 gives [0x0D] for a table
    leaf; the other three are the only codes that agree with the masks above
    and with the tables of [pgtypeMap], [getCellOffsetOffset] and
    [getCellSize] in btree.c (type [>> 2] is 0 for index-internal, 1 for
    table-internal, 2 for index-leaf, 3 for table-leaf). *)
Definition PGTYPE_TABLE_INTERNAL : Z := 5.
Definition PGTYPE_TABLE_LEAF : Z := 13.
Definition PGTYPE_INDEX_INTERNAL : Z := 2.
Definition PGTYPE_INDEX_LEAF : Z := 10.

(** Modelled from the spec: [DEFAULT_PAGE_SIZE] of chidbInt.h, which is not
    among the sources; section 4.G: the default page size is 1024. *)
Definition DEFAULT_PAGE_SIZE : Z := 1024.

(** The offsets and sizes that btree.h gives to the node header and to the
    four cell variants are not among the sources. They are the parameters of
    the development: every function below takes them from a [Layout]. *)
Class Layout : Set := {
  PGHEADER_PGTYPE_OFFSET : Z;
  PGHEADER_FREE_OFFSET : Z;
  PGHEADER_NCELLS_OFFSET : Z;
  PGHEADER_CELL_OFFSET : Z;
  PGHEADER_ZERO_OFFSET : Z;
  PGHEADER_RIGHTPG_OFFSET : Z;
  INTPG_CELLSOFFSET_OFFSET : Z;
  LEAFPG_CELLSOFFSET_OFFSET : Z;
  TABLEINTCELL_KEY_OFFSET : Z;
  TABLEINTCELL_CHILD_OFFSET : Z;
  TABLEINTCELL_SIZE : Z;
  TABLELEAFCELL_SIZE_OFFSET : Z;
  TABLELEAFCELL_KEY_OFFSET : Z;
  TABLELEAFCELL_DATA_OFFSET : Z;
  TABLELEAFCELL_SIZE_WITHOUTDATA : Z;
  INDEXINTCELL_CHILD_OFFSET : Z;
  INDEXINTCELL_KEYIDX_OFFSET : Z;
  INDEXINTCELL_KEYPK_OFFSET : Z;
  INDEXINTCELL_SIZE : Z;
  INDEXLEAFCELL_KEYIDX_OFFSET : Z;
  INDEXLEAFCELL_KEYPK_OFFSET : Z;
  INDEXLEAFCELL_SIZE : Z
}.

(** Modelled from the spec: a concrete [Layout], for the macros of btree.h
    that are not among the sources. Section 3 lists the node header as tag
    (1 byte), reserved zero (1 byte), free_offset, n_cells, cells_offset (2
    bytes each) and, for internal nodes, right_page (4 bytes); the cells as:
    table-internal (8 bytes) varint key, 4-byte child; table-leaf 4-byte
    payload length, varint key, payload; index-internal 4-byte child, 4-byte
    index key, 4-byte primary key; index-leaf 4-byte index key, 4-byte
    primary key. Fields are laid out in that order, a varint in a 4-byte
    slot. *)
Definition spec_layout : Layout := {|
  PGHEADER_PGTYPE_OFFSET := 0;
  PGHEADER_ZERO_OFFSET := 1;
  PGHEADER_FREE_OFFSET := 2;
  PGHEADER_NCELLS_OFFSET := 4;
  PGHEADER_CELL_OFFSET := 6;
  PGHEADER_RIGHTPG_OFFSET := 8;
  INTPG_CELLSOFFSET_OFFSET := 12;
  LEAFPG_CELLSOFFSET_OFFSET := 8;
  TABLEINTCELL_KEY_OFFSET := 0;
  TABLEINTCELL_CHILD_OFFSET := 4;
  TABLEINTCELL_SIZE := 8;
  TABLELEAFCELL_SIZE_OFFSET := 0;
  TABLELEAFCELL_KEY_OFFSET := 4;
  TABLELEAFCELL_DATA_OFFSET := 8;
  TABLELEAFCELL_SIZE_WITHOUTDATA := 8;
  INDEXINTCELL_CHILD_OFFSET := 0;
  INDEXINTCELL_KEYIDX_OFFSET := 4;
  INDEXINTCELL_KEYPK_OFFSET := 8;
  INDEXINTCELL_SIZE := 12;
  INDEXLEAFCELL_KEYIDX_OFFSET := 0;
  INDEXLEAFCELL_KEYPK_OFFSET := 4;
  INDEXLEAFCELL_SIZE := 8
|}.

(** Two byte ranges [[a, a+la)] and [[b, b+lb)] that do not meet. *)
Definition apart (a la b lb : Z) : Prop := a + la <= b \/ b + lb <= a.

(** What the node view needs of a layout: the six header fields lie at
    non-negative offsets, inside the header, and no two of them overlap. *)
Record header_layout_ok (L : Layout) : Prop := {
  hl_pgtype_pos : 0 <= PGHEADER_PGTYPE_OFFSET;
  hl_zero_pos : 0 <= PGHEADER_ZERO_OFFSET;
  hl_free_pos : 0 <= PGHEADER_FREE_OFFSET;
  hl_ncells_pos : 0 <= PGHEADER_NCELLS_OFFSET;
  hl_cell_pos : 0 <= PGHEADER_CELL_OFFSET;
  hl_rightpg_pos : 0 <= PGHEADER_RIGHTPG_OFFSET;
  hl_pgtype_zero : apart PGHEADER_PGTYPE_OFFSET 1 PGHEADER_ZERO_OFFSET 1;
  hl_pgtype_free : apart PGHEADER_PGTYPE_OFFSET 1 PGHEADER_FREE_OFFSET 2;
  hl_pgtype_ncells : apart PGHEADER_PGTYPE_OFFSET 1 PGHEADER_NCELLS_OFFSET 2;
  hl_pgtype_cell : apart PGHEADER_PGTYPE_OFFSET 1 PGHEADER_CELL_OFFSET 2;
  hl_pgtype_rightpg : apart PGHEADER_PGTYPE_OFFSET 1 PGHEADER_RIGHTPG_OFFSET 4;
  hl_zero_free : apart PGHEADER_ZERO_OFFSET 1 PGHEADER_FREE_OFFSET 2;
  hl_zero_ncells : apart PGHEADER_ZERO_OFFSET 1 PGHEADER_NCELLS_OFFSET 2;
  hl_zero_cell : apart PGHEADER_ZERO_OFFSET 1 PGHEADER_CELL_OFFSET 2;
  hl_zero_rightpg : apart PGHEADER_ZERO_OFFSET 1 PGHEADER_RIGHTPG_OFFSET 4;
  hl_free_ncells : apart PGHEADER_FREE_OFFSET 2 PGHEADER_NCELLS_OFFSET 2;
  hl_free_cell : apart PGHEADER_FREE_OFFSET 2 PGHEADER_CELL_OFFSET 2;
  hl_free_rightpg : apart PGHEADER_FREE_OFFSET 2 PGHEADER_RIGHTPG_OFFSET 4;
  hl_ncells_cell : apart PGHEADER_NCELLS_OFFSET 2 PGHEADER_CELL_OFFSET 2;
  hl_ncells_rightpg : apart PGHEADER_NCELLS_OFFSET 2 PGHEADER_RIGHTPG_OFFSET 4;
  hl_cell_rightpg : apart PGHEADER_CELL_OFFSET 2 PGHEADER_RIGHTPG_OFFSET 4;
  hl_pgtype_in : PGHEADER_PGTYPE_OFFSET + 1 <= LEAFPG_CELLSOFFSET_OFFSET;
  hl_zero_in : PGHEADER_ZERO_OFFSET + 1 <= LEAFPG_CELLSOFFSET_OFFSET;
  hl_free_in : PGHEADER_FREE_OFFSET + 2 <= LEAFPG_CELLSOFFSET_OFFSET;
  hl_ncells_in : PGHEADER_NCELLS_OFFSET + 2 <= LEAFPG_CELLSOFFSET_OFFSET;
  hl_cell_in : PGHEADER_CELL_OFFSET + 2 <= LEAFPG_CELLSOFFSET_OFFSET;
  hl_rightpg_in : PGHEADER_RIGHTPG_OFFSET + 4 <= INTPG_CELLSOFFSET_OFFSET;
  hl_leaf_int : LEAFPG_CELLSOFFSET_OFFSET <= INTPG_CELLSOFFSET_OFFSET
}.

(** What cell serialisation needs of a layout: a cell's fields lie at
    non-negative offsets from the start of the cell. *)
Record cell_layout_ok (L : Layout) : Prop := {
  cl_tableint_key : 0 <= TABLEINTCELL_KEY_OFFSET;
  cl_tableint_child : 0 <= TABLEINTCELL_CHILD_OFFSET;
  cl_tableleaf_size : 0 <= TABLELEAFCELL_SIZE_OFFSET;
  cl_tableleaf_key : 0 <= TABLELEAFCELL_KEY_OFFSET;
  cl_tableleaf_data : 0 <= TABLELEAFCELL_DATA_OFFSET;
  cl_indexint_child : 0 <= INDEXINTCELL_CHILD_OFFSET;
  cl_indexint_keyidx : 0 <= INDEXINTCELL_KEYIDX_OFFSET;
  cl_indexint_keypk : 0 <= INDEXINTCELL_KEYPK_OFFSET;
  cl_indexleaf_keyidx : 0 <= INDEXLEAFCELL_KEYIDX_OFFSET;
  cl_indexleaf_keypk : 0 <= INDEXLEAFCELL_KEYPK_OFFSET
}.

(** ** The pager (pager.c) *)

(** A page held in memory: its number and its buffer. *)
Record MemPage : Set := mkMemPage {
  npage : Z;
  data : list Z
}.

(** Modelled from the spec: the pager of pager.c, which is not among the
    sources; section 6.1 gives its interface. The pager owns the file, a
    sequence of pages of [page_size] bytes numbered from 1. [n_pages] counts
    the pages of the file and the pages allocated since; [n_mempages] counts
    the in-memory pages handed out by [chidb_Pager_readPage] and not yet
    released. Allocation and file I/O never fail in the model. *)
Record Pager : Set := mkPager {
  file : list Z;
  page_size : Z;
  n_pages : Z;
  n_mempages : Z
}.

(** [n] bytes of the file from byte [off], zero where the file is shorter. *)
Definition file_read (f : list Z) (off n : nat) : list Z :=
  take n (drop off f ++ replicate n 0).

(** The file with [bs] written at byte [off], grown with zero bytes when it
    was shorter than [off]. *)
Definition file_write (f : list Z) (off : nat) (bs : list Z) : list Z :=
  take off (f ++ replicate (off - length f) 0) ++ bs ++
  drop (off + length bs) f.

(** Modelled from the spec: [open(filename)] of section 6.1; pager.c is not
    among the sources. [contents] is what the named file holds, empty for a
    file that does not exist yet. *)
Definition chidb_Pager_open (contents : list Z) : rc * Pager :=
  (CHIDB_OK,
   {| file := contents; page_size := 0; n_pages := 0; n_mempages := 0 |}).

(** Modelled from the spec: [set_page_size(pager, size)] of section 6.1;
    pager.c is not among the sources. The pages of the file are the whole
    pages that its bytes make. *)
Definition chidb_Pager_setPageSize (p : Pager) (size : Z) : Pager :=
  {| file := file p;
     page_size := size;
     n_pages := Z.of_nat (length (file p)) / size;
     n_mempages := n_mempages p |}.

(** Modelled from the spec: [read_header(pager, 100-byte out)] of section
    6.1, which returns an error when the file is shorter than 100 bytes;
    pager.c is not among the sources. *)
Definition chidb_Pager_readHeader (p : Pager) : rc * list Z :=
  if Z.of_nat (length (file p)) <? 100
  then (CHIDB_NOHEADER, replicate 100 0)
  else (CHIDB_OK, take 100 (file p)).

(** Modelled from the spec: [allocate_page(pager, out npage)] of section
    6.1, which returns a newly appended page number; pager.c is not among
    the sources. *)
Definition chidb_Pager_allocatePage (p : Pager) : Pager * Z :=
  ({| file := file p;
      page_size := page_size p;
      n_pages := n_pages p + 1;
      n_mempages := n_mempages p |},
   n_pages p + 1).

Definition page_offset (p : Pager) (n : Z) : nat :=
  Z.to_nat ((n - 1) * page_size p).

(** Modelled from the spec: [read_page(pager, npage, out page)] of section
    6.1: the page owns a buffer of the configured size and the caller must
    release it; [PAGENO] for a bad page number; pager.c is not among the
    sources. *)
Definition chidb_Pager_readPage (p : Pager) (n : Z)
  : rc * Pager * option MemPage :=
  if (1 <=? n) && (n <=? n_pages p)
  then (CHIDB_OK,
        {| file := file p;
           page_size := page_size p;
           n_pages := n_pages p;
           n_mempages := n_mempages p + 1 |},
        Some {| npage := n;
                data := file_read (file p) (page_offset p n)
                          (Z.to_nat (page_size p)) |})
  else (CHIDB_EPAGENO, p, None).

(** Modelled from the spec: [write_page(pager, page)] of section 6.1;
    pager.c is not among the sources. The [page_size] bytes of the buffer go
    to the file at once. *)
Definition chidb_Pager_writePage (p : Pager) (pg : MemPage) : rc * Pager :=
  if (1 <=? npage pg) && (npage pg <=? n_pages p)
  then (CHIDB_OK,
        {| file := file_write (file p) (page_offset p (npage pg))
                     (file_read (data pg) 0 (Z.to_nat (page_size p)));
           page_size := page_size p;
           n_pages := n_pages p;
           n_mempages := n_mempages p |})
  else (CHIDB_EPAGENO, p).

(** Modelled from the spec: [release_page(pager, page)] of section 6.1,
    which drops the reference; pager.c is not among the sources. *)
Definition chidb_Pager_releaseMemPage (p : Pager) (pg : MemPage)
  : rc * Pager :=
  (CHIDB_OK,
   {| file := file p;
      page_size := page_size p;
      n_pages := n_pages p;
      n_mempages := n_mempages p - 1 |}).

(** Modelled from the spec: [close(pager)] of section 6.1; pager.c is not
    among the sources. The file stays as the pager left it. *)
Definition chidb_Pager_close (p : Pager) : rc * Pager := (CHIDB_OK, p).

(** ** The engine's data (btree.h) *)

(** The handle of an open file of B-trees; it owns its pager. *)
Record BTree : Set := mkBTree {
  pager : Pager
}.

(** The in-memory view of a node. [page] is the buffer the node borrows and
    [celloffset_array] the byte offset in that buffer at which the
    cell-offset array starts (a pointer into [page->data] in C). The two-byte
    fields are [uint16_t] and [right_page] is 32 bits wide. *)
Record BTreeNode : Set := mkBTreeNode {
  page : MemPage;
  type : Z;
  free_offset : Z;
  n_cells : Z;
  cells_offset : Z;
  right_page : Z;
  celloffset_array : Z
}.

(** The members of [BTreeCell.fields] that btree.c names. The declaration
    is in btree.h, which is not among the sources; the model keeps one slot
    per member. [tableLeaf_data] stands for the bytes that the C pointer
    designates. *)
Record BTreeCellFields : Set := mkBTreeCellFields {
  tableInternal_child_page : Z;
  tableLeaf_data_size : Z;
  tableLeaf_data : list Z;
  indexInternal_keyPk : Z;
  indexInternal_child_page : Z;
  indexLeaf_keyPk : Z
}.

Module BTreeCell.
Record t : Set := mk {
  type : Z;
  key : Z;
  fields : BTreeCellFields
}.
End BTreeCell.
Abbreviation BTreeCell := BTreeCell.t.

(** Storage that was just allocated. C leaves its content indeterminate;
    the model takes it zero-filled, and no statement below depends on it. *)
Definition fresh_fields : BTreeCellFields :=
  {| tableInternal_child_page := 0;
     tableLeaf_data_size := 0;
     tableLeaf_data := [];
     indexInternal_keyPk := 0;
     indexInternal_child_page := 0;
     indexLeaf_keyPk := 0 |}.

Definition fresh_cell : BTreeCell :=
  {| BTreeCell.type := 0; BTreeCell.key := 0; BTreeCell.fields := fresh_fields |}.

Definition fresh_node : BTreeNode :=
  {| page := {| npage := 0; data := [] |};
     type := 0; free_offset := 0; n_cells := 0; cells_offset := 0;
     right_page := 0; celloffset_array := 0 |}.

(** Conversions to the unsigned types of the C code. *)
Definition u16 (x : Z) : Z := x mod 65536.

(** A C condition: any non-zero value is true. *)
Definition nonzero (x : Z) : bool := negb (x =? 0).

(** ** The file header *)

(** The header that [chidb_Btree_open] writes at the start of page 1. *)
Definition write_file_header (d : list Z) : list Z :=
  let d := strncpy d 0 (c_str "SQLite format 3") 16 in
  let d := put2byte d 16 DEFAULT_PAGE_SIZE in
  let d := wr d 18 1 in
  let d := wr d 19 1 in
  let d := wr d 20 0 in
  let d := wr d 21 64 in
  let d := wr d 22 32 in
  let d := wr d 23 32 in
  let d := put4byte d 24 0 in
  let d := put4byte d 32 0 in
  let d := put4byte d 36 0 in
  let d := put4byte d 40 0 in
  let d := put4byte d 44 1 in
  let d := put4byte d 48 20000 in
  let d := put4byte d 52 0 in
  let d := put4byte d 56 1 in
  let d := put4byte d 60 0 in
  put4byte d 64 0.

(** [verifyHeader]: the only values that are valid for the current build. *)
Definition verifyHeader (buf_head : list Z) : rc :=
  let invalid_header :=
    nonzero (strncmp buf_head 0 (c_str "SQLite format 3") 16)
    || negb (rd buf_head 18 =? 1)
    || negb (rd buf_head 19 =? 1)
    || negb (rd buf_head 20 =? 0)
    || negb (rd buf_head 21 =? 64)
    || negb (rd buf_head 22 =? 32)
    || negb (rd buf_head 23 =? 32)
    || negb (get4byte buf_head 32 =? 0)
    || negb (get4byte buf_head 36 =? 0)
    || negb (get4byte buf_head 44 =? 1)
    || negb (get4byte buf_head 48 =? 20000)
    || negb (get4byte buf_head 52 =? 0)
    || negb (get4byte buf_head 56 =? 1)
    || negb (get4byte buf_head 64 =? 0) in
  if invalid_header then CHIDB_ECORRUPTHEADER else CHIDB_OK.

Section Engine.

Context {L : Layout}.

(** ** The node view *)

Definition pgtypeMap (type : Z) : Z := Z.shiftr type 2.

Definition getHeaderOffset (npage : Z) : Z :=
  if negb (npage =? 1) then 0 else CHIDB_FILE_HEADER_LEN.

(** The table has two entries; past them the C code reads outside the
    table, and the model reads 0. *)
Definition getCellOffsetOffset (type : Z) : Z :=
  let tab := [INTPG_CELLSOFFSET_OFFSET; LEAFPG_CELLSOFFSET_OFFSET] in
  rd tab (Z.shiftr (pgtypeMap type) 1).

(** [packBTN(btn, page)] fills [*btn] from the page; on a leaf it leaves
    [btn->right_page] as it was. *)
Definition packBTN (btn : BTreeNode) (page : MemPage) : BTreeNode :=
  let head := getHeaderOffset (npage page) in
  let d := data page in
  let type := rd d (head + PGHEADER_PGTYPE_OFFSET) in
  {| page := page;
     type := type;
     free_offset := get2byte d (head + PGHEADER_FREE_OFFSET);
     n_cells := get2byte d (head + PGHEADER_NCELLS_OFFSET);
     cells_offset := get2byte d (head + PGHEADER_CELL_OFFSET);
     right_page :=
       if negb (nonzero (Z.land type FLAG_LEAF))
       then get4byte d (head + PGHEADER_RIGHTPG_OFFSET)
       else right_page btn;
     celloffset_array := head + getCellOffsetOffset type |}.

Definition chidb_Btree_getNodeByPage (bt : BTree) (npage : Z)
  : rc * BTree * option BTreeNode :=
  match chidb_Pager_readPage (pager bt) npage with
  | (CHIDB_OK, p, Some page) =>
      (CHIDB_OK, {| pager := p |}, Some (packBTN fresh_node page))
  | (rc, p, _) => (rc, {| pager := p |}, None)
  end.

Definition chidb_Btree_freeMemNode (bt : BTree) (btn : BTreeNode)
  : rc * BTree :=
  let '(rc, p) := chidb_Pager_releaseMemPage (pager bt) (page btn) in
  (rc, {| pager := p |}).

(** [chidb_Btree_writeNode(bt, btn)]: the header fields go into the page
    buffer of the node, which is then handed to the pager. The node comes
    back with the buffer as written. *)
Definition chidb_Btree_writeNode (bt : BTree) (btn : BTreeNode)
  : rc * BTree * BTreeNode :=
  let head := getHeaderOffset (npage (page btn)) in
  let d := data (page btn) in
  let d := wr d (head + PGHEADER_PGTYPE_OFFSET) (type btn) in
  let d := wr d (head + PGHEADER_ZERO_OFFSET) 0 in
  let d := put2byte d (head + PGHEADER_FREE_OFFSET) (free_offset btn) in
  let d := put2byte d (head + PGHEADER_NCELLS_OFFSET) (n_cells btn) in
  let d := put2byte d (head + PGHEADER_CELL_OFFSET) (cells_offset btn) in
  let d :=
    if negb (nonzero (Z.land (type btn) FLAG_LEAF))
    then put4byte d (head + PGHEADER_RIGHTPG_OFFSET) (right_page btn)
    else d in
  let pg := {| npage := npage (page btn); data := d |} in
  let '(_, p) := chidb_Pager_writePage (pager bt) pg in
  (CHIDB_OK, {| pager := p |},
   {| page := pg;
      type := type btn;
      free_offset := free_offset btn;
      n_cells := n_cells btn;
      cells_offset := cells_offset btn;
      right_page := right_page btn;
      celloffset_array := celloffset_array btn |}).

Definition chidb_Btree_initEmptyNode (bt : BTree) (npage : Z) (type : Z)
  : rc * BTree :=
  match chidb_Pager_readPage (pager bt) npage with
  | (CHIDB_OK, p, Some page) =>
      let combined_offset :=
        getHeaderOffset npage + getCellOffsetOffset type in
      let btn :=
        {| page := page;
           type := type;
           free_offset := u16 combined_offset;
           n_cells := 0;
           cells_offset := page_size p;
           right_page := 0;
           celloffset_array := combined_offset |} in
      let '(_, bt1, btn1) := chidb_Btree_writeNode {| pager := p |} btn in
      let '(_, p2) := chidb_Pager_releaseMemPage (pager bt1) page in
      (CHIDB_OK, {| pager := p2 |})
  | (rc, p, _) => (rc, {| pager := p |})
  end.

Definition chidb_Btree_newNode (bt : BTree) (type : Z) : rc * BTree * Z :=
  let '(p, npage) := chidb_Pager_allocatePage (pager bt) in
  let '(rc, bt1) := chidb_Btree_initEmptyNode {| pager := p |} npage type in
  (rc, bt1, npage).

(** ** The cell view *)

Definition set_key (cell : BTreeCell) (r : option (Z * Z)) : BTreeCell :=
  match r with
  | Some (v, _) =>
      {| BTreeCell.type := BTreeCell.type cell;
         BTreeCell.key := v;
         BTreeCell.fields := BTreeCell.fields cell |}
  | None => cell
  end.

Definition set_data_size (f : BTreeCellFields) (r : option (Z * Z))
  : BTreeCellFields :=
  match r with
  | Some (v, _) =>
      {| tableInternal_child_page := tableInternal_child_page f;
         tableLeaf_data_size := v;
         tableLeaf_data := tableLeaf_data f;
         indexInternal_keyPk := indexInternal_keyPk f;
         indexInternal_child_page := indexInternal_child_page f;
         indexLeaf_keyPk := indexLeaf_keyPk f |}
  | None => f
  end.

(** [chidb_Btree_getCell(btn, ncell, cell)] fills [*cell]; the members that
    the variant does not have stay as they were. For a table leaf the data
    pointer designates the bytes of the page from the payload on. *)
Definition chidb_Btree_getCell (btn : BTreeNode) (ncell : Z)
    (cell : BTreeCell) : rc * BTreeCell :=
  if (ncell <? 0) || (ncell >=? n_cells btn) then (CHIDB_ECELLNO, cell)
  else
    let d := data (page btn) in
    let cell_offset := get2byte d (celloffset_array btn + 2 * ncell) in
    let head := cell_offset in
    let f := BTreeCell.fields cell in
    let ty := type btn in
    let cell1 :=
      if ty =? PGTYPE_TABLE_INTERNAL then
        let c := set_key cell (getVarint32 d (head + TABLEINTCELL_KEY_OFFSET)) in
        {| BTreeCell.type := ty;
           BTreeCell.key := BTreeCell.key c;
           BTreeCell.fields :=
             {| tableInternal_child_page :=
                  get4byte d (head + TABLEINTCELL_CHILD_OFFSET);
                tableLeaf_data_size := tableLeaf_data_size f;
                tableLeaf_data := tableLeaf_data f;
                indexInternal_keyPk := indexInternal_keyPk f;
                indexInternal_child_page := indexInternal_child_page f;
                indexLeaf_keyPk := indexLeaf_keyPk f |} |}
      else if ty =? PGTYPE_TABLE_LEAF then
        let c := set_key cell (getVarint32 d (head + TABLELEAFCELL_KEY_OFFSET)) in
        let f1 :=
          set_data_size f (getVarint32 d (head + TABLELEAFCELL_SIZE_OFFSET)) in
        {| BTreeCell.type := ty;
           BTreeCell.key := BTreeCell.key c;
           BTreeCell.fields :=
             {| tableInternal_child_page := tableInternal_child_page f1;
                tableLeaf_data_size := tableLeaf_data_size f1;
                tableLeaf_data :=
                  drop (Z.to_nat (head + TABLELEAFCELL_DATA_OFFSET)) d;
                indexInternal_keyPk := indexInternal_keyPk f1;
                indexInternal_child_page := indexInternal_child_page f1;
                indexLeaf_keyPk := indexLeaf_keyPk f1 |} |}
      else if ty =? PGTYPE_INDEX_INTERNAL then
        {| BTreeCell.type := ty;
           BTreeCell.key := get4byte d (head + INDEXINTCELL_KEYIDX_OFFSET);
           BTreeCell.fields :=
             {| tableInternal_child_page := tableInternal_child_page f;
                tableLeaf_data_size := tableLeaf_data_size f;
                tableLeaf_data := tableLeaf_data f;
                indexInternal_keyPk :=
                  get4byte d (head + INDEXINTCELL_KEYPK_OFFSET);
                indexInternal_child_page :=
                  get4byte d (head + INDEXINTCELL_CHILD_OFFSET);
                indexLeaf_keyPk := indexLeaf_keyPk f |} |}
      else if ty =? PGTYPE_INDEX_LEAF then
        {| BTreeCell.type := ty;
           BTreeCell.key := get4byte d (head + INDEXLEAFCELL_KEYIDX_OFFSET);
           BTreeCell.fields :=
             {| tableInternal_child_page := tableInternal_child_page f;
                tableLeaf_data_size := tableLeaf_data_size f;
                tableLeaf_data := tableLeaf_data f;
                indexInternal_keyPk := indexInternal_keyPk f;
                indexInternal_child_page := indexInternal_child_page f;
                indexLeaf_keyPk :=
                  get4byte d (head + INDEXLEAFCELL_KEYPK_OFFSET) |} |}
      else
        {| BTreeCell.type := ty;
           BTreeCell.key := BTreeCell.key cell;
           BTreeCell.fields := f |} in
    (CHIDB_OK, cell1).

(** [unpackBTC(head, btc)] serialises the cell at offset [head] of the
    buffer. The payload of a table leaf is copied from the bytes that the
    data pointer designates. *)
Definition unpackBTC (d : list Z) (head : Z) (btc : BTreeCell) : list Z :=
  let ty := BTreeCell.type btc in
  let f := BTreeCell.fields btc in
  if ty =? PGTYPE_TABLE_INTERNAL then
    let d := put_ignoring_rc d
               (putVarint32 d (head + TABLEINTCELL_KEY_OFFSET)
                  (BTreeCell.key btc)) in
    put4byte d (head + TABLEINTCELL_CHILD_OFFSET) (tableInternal_child_page f)
  else if ty =? PGTYPE_TABLE_LEAF then
    let d := put_ignoring_rc d
               (putVarint32 d (head + TABLELEAFCELL_KEY_OFFSET)
                  (BTreeCell.key btc)) in
    let d := put_ignoring_rc d
               (putVarint32 d (head + TABLELEAFCELL_SIZE_OFFSET)
                  (tableLeaf_data_size f)) in
    let record_head := head + TABLELEAFCELL_DATA_OFFSET in
    write_bytes d record_head
      (take (Z.to_nat (tableLeaf_data_size f)) (tableLeaf_data f))
  else if ty =? PGTYPE_INDEX_INTERNAL then
    let d := put4byte d (head + INDEXINTCELL_KEYIDX_OFFSET)
               (BTreeCell.key btc) in
    let d := put4byte d (head + INDEXINTCELL_KEYPK_OFFSET)
               (indexInternal_keyPk f) in
    put4byte d (head + INDEXINTCELL_CHILD_OFFSET) (indexInternal_child_page f)
  else if ty =? PGTYPE_INDEX_LEAF then
    let d := put4byte d (head + INDEXLEAFCELL_KEYIDX_OFFSET)
               (BTreeCell.key btc) in
    put4byte d (head + INDEXLEAFCELL_KEYPK_OFFSET) (indexLeaf_keyPk f)
  else d.

(** [getCellSize(btc)]. The table has four entries; past them the C code
    reads outside the table, and the model reads 0. The sum is a [size_t]. *)
Definition getCellSize (btc : BTreeCell) : Z :=
  let tab :=
    [INDEXINTCELL_SIZE; TABLEINTCELL_SIZE; INDEXLEAFCELL_SIZE;
     TABLELEAFCELL_SIZE_WITHOUTDATA] in
  let i := pgtypeMap (BTreeCell.type btc) in
  let size := rd tab i in
  if nonzero (Z.land (BTreeCell.type btc) (Z.lor FLAG_LEAF FLAG_TABLE))
  then size + tableLeaf_data_size (BTreeCell.fields btc)
  else size.

(** ** Node mutation *)

(** [chidb_Btree_insertCell(btn, ncell, cell)]: the node comes back with its
    fields and its page buffer as the call leaves them. *)
Definition chidb_Btree_insertCell (btn : BTreeNode) (ncell : Z)
    (cell : BTreeCell) : rc * BTreeNode :=
  if ncell >? n_cells btn then (CHIDB_ECELLNO, btn)
  else
    let old_n_cells := n_cells btn in
    let n_cells1 := u16 (n_cells btn + 1) in
    let cells_offset1 := u16 (cells_offset btn - getCellSize cell) in
    let cell_offset := cells_offset1 in
    let d := unpackBTC (data (page btn)) cell_offset cell in
    let arr := celloffset_array btn in
    let d :=
      if ncell <? old_n_cells
      then memmove d (arr + 2 * (ncell + 1)) (arr + 2 * ncell)
             (2 * (old_n_cells - ncell))
      else d in
    let d := put2byte d (arr + 2 * ncell) cell_offset in
    (CHIDB_OK,
     {| page := {| npage := npage (page btn); data := d |};
        type := type btn;
        free_offset := u16 (free_offset btn + 2);
        n_cells := n_cells1;
        cells_offset := cells_offset1;
        right_page := right_page btn;
        celloffset_array := arr |}).

(** ** Search *)

(** The loop of [nodeBTCArray]: cells [i], [i+1], ... are read in turn, each
    into a fresh slot of the array. *)
Fixpoint nodeBTCArray_loop (btn : BTreeNode) (i : Z) (todo : nat)
    (acc : list BTreeCell) : rc * option (list BTreeCell) :=
  match todo with
  | O => (CHIDB_OK, Some acc)
  | S todo' =>
      match chidb_Btree_getCell btn i fresh_cell with
      | (CHIDB_OK, cell) =>
          nodeBTCArray_loop btn (i + 1) todo' (acc ++ [cell])
      | (rc, _) => (rc, None)
      end
  end.

(** [nodeBTCArray(btn, btc_arr)]: on a node without cells the code answers
    [CHIDB_ENOTFOUND] and leaves [*btc_arr] alone. *)
Definition nodeBTCArray (btn : BTreeNode) : rc * option (list BTreeCell) :=
  if negb (nonzero (n_cells btn)) then (CHIDB_ENOTFOUND, None)
  else nodeBTCArray_loop btn 0 (Z.to_nat (n_cells btn)) [].

(** The loop of [nodeKeyBSearch], on [fuel] iterations at most; the result
    is the returned flag and [*ncell]. *)
Fixpoint nodeKeyBSearch_loop (fuel : nat) (btc_arr : list BTreeCell)
    (key : Z) (left right : Z) : option (Z * Z) :=
  match fuel with
  | O => None
  | S fuel' =>
      if left <=? right then
        let mid := left + Z.quot (right - left) 2 in
        let k := BTreeCell.key (nth (Z.to_nat mid) btc_arr fresh_cell) in
        if k <? key then
          nodeKeyBSearch_loop fuel' btc_arr key (mid + 1) right
        else if k >? key then
          nodeKeyBSearch_loop fuel' btc_arr key left (mid - 1)
        else Some (1, mid)
      else Some (0, left)
  end.

Definition nodeKeyBSearch (btn : BTreeNode) (btc_arr : list BTreeCell)
    (key : Z) : option (Z * Z) :=
  nodeKeyBSearch_loop (S (Z.to_nat (n_cells btn))) btc_arr key
    0 (n_cells btn - 1).

(** [cellRecordCpy(btc, data, size)]: [*size] is a [uint16_t]. *)
Definition cellRecordCpy (btc : BTreeCell) : rc * option (list Z * Z) :=
  let size := u16 (tableLeaf_data_size (BTreeCell.fields btc)) in
  (CHIDB_OK,
   Some (take (Z.to_nat size) (tableLeaf_data (BTreeCell.fields btc)), size)).

(** What follows the loop of [chidb_Btree_find]: the node still held, if
    any, is released. *)
Definition find_exit (r : rc) (bt : BTree) (btn : option BTreeNode)
    (out : option (list Z * Z)) : rc * BTree * option (list Z * Z) :=
  match btn with
  | Some n => (r, (chidb_Btree_freeMemNode bt n).2, out)
  | None => (r, bt, out)
  end.

(** The loop of [chidb_Btree_find], on [fuel] iterations at most. The result
    is the returned code, the handle, and the out-parameters [*data] and
    [*size] when they were set. [None] stands for a loop that is still
    running when the fuel is spent. *)
Fixpoint chidb_Btree_find_loop (fuel : nat) (bt : BTree) (nroot npage : Z)
    (key : Z) : option (rc * BTree * option (list Z * Z)) :=
  match fuel with
  | O => None
  | S fuel' =>
      match chidb_Btree_getNodeByPage bt npage with
      | (CHIDB_OK, bt1, Some btn) =>
          match nodeBTCArray btn with
          | (CHIDB_OK, Some btc_arr) =>
              let table := nonzero (Z.land (type btn) FLAG_TABLE) in
              let leaf := nonzero (Z.land (type btn) FLAG_LEAF) in
              let index := nonzero (Z.land (type btn) FLAG_INDEX) in
              match nodeKeyBSearch btn btc_arr key with
              | None => None
              | Some (m, ncell) =>
                  let matched := nonzero m in
                  let cell := nth (Z.to_nat ncell) btc_arr fresh_cell in
                  if matched && leaf && table then
                    let '(r, out) := cellRecordCpy cell in
                    Some (find_exit r bt1 (Some btn) out)
                  else if matched && index then
                    let key1 :=
                      if leaf
                      then indexLeaf_keyPk (BTreeCell.fields cell)
                      else indexInternal_keyPk (BTreeCell.fields cell) in
                    chidb_Btree_find_loop fuel'
                      (chidb_Btree_freeMemNode bt1 btn).2 nroot nroot key1
                  else if negb leaf then
                    let npage1 :=
                      if ncell =? n_cells btn then right_page btn
                      else if table
                      then tableInternal_child_page (BTreeCell.fields cell)
                      else indexInternal_child_page (BTreeCell.fields cell) in
                    chidb_Btree_find_loop fuel'
                      (chidb_Btree_freeMemNode bt1 btn).2 nroot npage1 key
                  else
                    Some (find_exit CHIDB_ENOTFOUND bt1 (Some btn) None)
              end
          | (r, _) => Some (find_exit r bt1 (Some btn) None)
          end
      | (r, bt1, _) => Some (find_exit r bt1 None None)
      end
  end.

Definition chidb_Btree_find (fuel : nat) (bt : BTree) (nroot : Z) (key : Z)
  : option (rc * BTree * option (list Z * Z)) :=
  chidb_Btree_find_loop fuel bt nroot nroot key.

(** ** Insertion *)

(** The three functions below have no other statement than their [return]
    in btree.c. *)
Definition chidb_Btree_insert (bt : BTree) (nroot : Z) (btc : BTreeCell)
  : rc * BTree :=
  (CHIDB_OK, bt).

Definition chidb_Btree_insertNonFull (bt : BTree) (npage : Z)
    (btc : BTreeCell) : rc * BTree :=
  (CHIDB_OK, bt).

Definition chidb_Btree_split (bt : BTree) (npage_parent npage_child : Z)
    (parent_ncell : Z) : rc * BTree :=
  (CHIDB_OK, bt).

Definition chidb_Btree_insertInTable (bt : BTree) (nroot : Z) (key : Z)
    (data : list Z) (size : Z) : rc * BTree :=
  let btc :=
    {| BTreeCell.type := PGTYPE_TABLE_LEAF;
       BTreeCell.key := key;
       BTreeCell.fields :=
         {| tableInternal_child_page := 0;
            tableLeaf_data_size := size;
            tableLeaf_data := data;
            indexInternal_keyPk := 0;
            indexInternal_child_page := 0;
            indexLeaf_keyPk := 0 |} |} in
  chidb_Btree_insert bt nroot btc.

Definition chidb_Btree_insertInIndex (bt : BTree) (nroot : Z)
    (keyIdx keyPk : Z) : rc * BTree :=
  let btc :=
    {| BTreeCell.type := FLAG_INDEX;
       BTreeCell.key := keyIdx;
       BTreeCell.fields :=
         {| tableInternal_child_page := 0;
            tableLeaf_data_size := 0;
            tableLeaf_data := [];
            indexInternal_keyPk := 0;
            indexInternal_child_page := 0;
            indexLeaf_keyPk := keyPk |} |} in
  chidb_Btree_insert bt nroot btc.

(** ** Opening a file *)

(** [chidb_Btree_open(filename, db, bt)], on the contents of the named file
    (empty when there is no such file). On an error the handle that comes
    back is the one that the code has closed and freed. *)
Definition chidb_Btree_open (contents : list Z) : rc * BTree :=
  match chidb_Pager_open contents with
  | (CHIDB_OK, p0) =>
      match chidb_Pager_readHeader p0 with
      | (CHIDB_OK, header_buf) =>
          match verifyHeader header_buf with
          | CHIDB_OK =>
              let page_size := get2byte header_buf 16 in
              (CHIDB_OK, {| pager := chidb_Pager_setPageSize p0 page_size |})
          | _ =>
              (CHIDB_ECORRUPTHEADER, {| pager := (chidb_Pager_close p0).2 |})
          end
      | (_, _) =>
          let p1 := chidb_Pager_setPageSize p0 DEFAULT_PAGE_SIZE in
          match chidb_Btree_newNode {| pager := p1 |} PGTYPE_TABLE_LEAF with
          | (CHIDB_OK, bt1, _) =>
              match chidb_Pager_readPage (pager bt1) 1 with
              | (CHIDB_OK, p2, Some page) =>
                  let page1 :=
                    {| npage := npage page;
                       data := write_file_header (data page) |} in
                  let '(_, p3) := chidb_Pager_writePage p2 page1 in
                  let '(_, p4) := chidb_Pager_releaseMemPage p3 page1 in
                  (CHIDB_OK, {| pager := p4 |})
              | (r, p2, _) => (r, {| pager := (chidb_Pager_close p2).2 |})
              end
          | (r, bt1, _) => (r, {| pager := (chidb_Pager_close (pager bt1)).2 |})
          end
      end
  | (r, p0) => (r, {| pager := p0 |})
  end.

End Engine.

(** ** Well-formed nodes and layouts *)

(** The four legal values of the type tag. *)
Definition legal_type (t : Z) : Prop :=
  t = PGTYPE_TABLE_INTERNAL \/ t = PGTYPE_TABLE_LEAF \/
  t = PGTYPE_INDEX_INTERNAL \/ t = PGTYPE_INDEX_LEAF.

(** The test [type & FLAG_LEAF] of btree.c. *)
Definition is_leaf_type (t : Z) : bool := nonzero (Z.land t FLAG_LEAF).

(** The fields of a node hold values of their C types: [uint8_t] for the
    tag, [uint16_t] for the three offsets and counts, 32 bits for
    [right_page]. *)
Definition node_in_range (btn : BTreeNode) : Prop :=
  0 <= type btn < 256 /\
  0 <= free_offset btn < 65536 /\
  0 <= n_cells btn < 65536 /\
  0 <= cells_offset btn < 65536 /\
  0 <= right_page btn < 4294967296.

(** The page buffer of the node is long enough for the node header. *)
Definition header_fits {L : Layout} (btn : BTreeNode) : Prop :=
  getHeaderOffset (npage (page btn)) + getCellOffsetOffset (type btn)
  <= Z.of_nat (length (data (page btn))).

(** The invariants of section 3 that cell insertion relies on: the
    cell-offset array of [n_cells] entries ends at [free_offset], the first
    free byte, and the cell area starts at [cells_offset], inside the page
    buffer. *)
Definition node_ok (btn : BTreeNode) : Prop :=
  0 <= celloffset_array btn /\
  0 <= n_cells btn /\
  celloffset_array btn + 2 * n_cells btn = free_offset btn /\
  cells_offset btn <= Z.of_nat (length (data (page btn))) /\
  cells_offset btn < 65536.

(** ** The canonical file header *)

(** The sixteen bytes of the magic string. *)
Definition magic : list Z := c_str "SQLite format 3" ++ [0].

(** The values that section 3 of the specification requires of a header. *)
Definition header_fields_ok (buf : list Z) : Prop :=
  take 16 buf = magic /\
  rd buf 18 = 1 /\ rd buf 19 = 1 /\ rd buf 20 = 0 /\ rd buf 21 = 64 /\
  rd buf 22 = 32 /\ rd buf 23 = 32 /\
  get4byte buf 32 = 0 /\ get4byte buf 36 = 0 /\
  get4byte buf 52 = 0 /\ get4byte buf 64 = 0 /\
  get4byte buf 44 = 1 /\ get4byte buf 56 = 1 /\
  get4byte buf 48 = 20000.

(** The first 68 bytes that [write_file_header] leaves: everything but the
    four bytes at 28..31, which it does not touch. *)
Definition header_prefix (b28 b29 b30 b31 : Z) : list Z :=
  magic ++ [4; 0; 1; 1; 0; 64; 32; 32; 0; 0; 0; 0; b28; b29; b30; b31;
            0; 0; 0; 0; 0; 0; 0; 0; 0; 0; 0; 0; 0; 0; 0; 1; 0; 0; 78; 32;
            0; 0; 0; 0; 0; 0; 0; 1; 0; 0; 0; 0; 0; 0; 0; 0].

(** ** A new file *)

(** The node that [chidb_Btree_initEmptyNode] builds for page 1 of a new
    file. *)
Definition first_node {L : Layout} : BTreeNode :=
  {| page := {| npage := 1; data := replicate 1024 0 |};
     type := PGTYPE_TABLE_LEAF;
     free_offset := u16 (CHIDB_FILE_HEADER_LEN + LEAFPG_CELLSOFFSET_OFFSET);
     n_cells := 0;
     cells_offset := 1024;
     right_page := 0;
     celloffset_array := CHIDB_FILE_HEADER_LEN + LEAFPG_CELLSOFFSET_OFFSET |}.

(** The pager of a file that is still empty, with its one page allocated. *)
Definition new_pager (n : Z) : Pager :=
  {| file := []; page_size := 1024; n_pages := 1; n_mempages := n |}.

(** The buffer of page 1 once that node is stored. *)
Definition first_page {L : Layout} : list Z :=
  data (page (chidb_Btree_writeNode {| pager := new_pager 1 |} first_node).2).

(** ** Example data *)

(** A two-page file with 1024-byte pages, and an internal table node on its
    first page. *)
Definition example_bt : BTree :=
  {| pager := {| file := replicate 2048 0; page_size := 1024;
                 n_pages := 2; n_mempages := 0 |} |}.

Definition example_node : BTreeNode :=
  {| page := {| npage := 1; data := replicate 1024 0 |};
     type := PGTYPE_TABLE_INTERNAL;
     free_offset := 112;
     n_cells := 0;
     cells_offset := 1024;
     right_page := 2;
     celloffset_array := 112 |}.

(** An empty table leaf on page 2 of a file with 1024-byte pages, and the
    row of the insertion scenario. *)
Definition example_leaf : BTreeNode :=
  {| page := {| npage := 2; data := replicate 1024 0 |};
     type := PGTYPE_TABLE_LEAF;
     free_offset := 8;
     n_cells := 0;
     cells_offset := 1024;
     right_page := 0;
     celloffset_array := 8 |}.

Definition table_cell (key : Z) (payload : list Z) : BTreeCell :=
  {| BTreeCell.type := PGTYPE_TABLE_LEAF;
     BTreeCell.key := key;
     BTreeCell.fields :=
       {| tableInternal_child_page := 0;
          tableLeaf_data_size := Z.of_nat (length payload);
          tableLeaf_data := payload;
          indexInternal_keyPk := 0;
          indexInternal_child_page := 0;
          indexLeaf_keyPk := 0 |} |}.

Definition hard_drive : list Z := c_str "Hard Drive".

(** The header that [chidb_Btree_open] writes, alone in a 100-byte buffer. *)
Definition canonical_header : list Z :=
  take 100 (write_file_header (replicate 100 0)).

(** The database that [chidb_Btree_open] creates, in the layout of the
    specification. *)
Definition new_db : BTree := (chidb_Btree_open (L := spec_layout) []).2.

(** What scenarios 2, 3 and 6 of section 8 need and [chidb_Btree_insert]
    does not do: the cell is put at position [k] of the node on page
    [npage] with the functions of btree.c that load a node, insert a cell
    in it and store it. *)
Definition put_cell {L : Layout} (bt : BTree) (npage k : Z)
    (cell : BTreeCell) : BTree :=
  match chidb_Btree_getNodeByPage bt npage with
  | (CHIDB_OK, bt1, Some btn) =>
      let '(_, btn1) := chidb_Btree_insertCell btn k cell in
      let '(_, bt2, btn2) := chidb_Btree_writeNode bt1 btn1 in
      (chidb_Btree_freeMemNode bt2 btn2).2
  | (_, bt1, _) => bt1
  end.

Definition index_cell (keyIdx keyPk : Z) : BTreeCell :=
  {| BTreeCell.type := PGTYPE_INDEX_LEAF;
     BTreeCell.key := keyIdx;
     BTreeCell.fields :=
       {| tableInternal_child_page := 0;
          tableLeaf_data_size := 0;
          tableLeaf_data := [];
          indexInternal_keyPk := 0;
          indexInternal_child_page := 0;
          indexLeaf_keyPk := keyPk |} |}.

(** Scenario 3: the new database with the row of key 1 in its root. *)
Definition db_with_row : BTree :=
  put_cell (L := spec_layout) new_db 1 0 (table_cell 1 hard_drive).

(** Scenario 6: a table with the keys 10, 20 and 30 on page 1, and an index
    leaf on page 2 with the entries (30, 10), (50, 20) and (70, 30). *)
Definition db_table : BTree :=
  let bt := put_cell (L := spec_layout) new_db 1 0
              (table_cell 10 (c_str "ten")) in
  let bt := put_cell (L := spec_layout) bt 1 1
              (table_cell 20 (c_str "twenty")) in
  put_cell (L := spec_layout) bt 1 2 (table_cell 30 (c_str "thirty")).

Definition db_index : BTree :=
  let bt := (chidb_Btree_newNode (L := spec_layout) db_table
               PGTYPE_INDEX_LEAF).1.2 in
  let bt := put_cell (L := spec_layout) bt 2 0 (index_cell 30 10) in
  let bt := put_cell (L := spec_layout) bt 2 1 (index_cell 50 20) in
  put_cell (L := spec_layout) bt 2 2 (index_cell 70 30).

(** A table-internal cell whose members all hold 3, so that it reads the
    same however btree.h overlays the members of [fields]. *)
Definition internal_cell_3 : BTreeCell :=
  {| BTreeCell.type := PGTYPE_TABLE_INTERNAL;
     BTreeCell.key := 7;
     BTreeCell.fields :=
       {| tableInternal_child_page := 3;
          tableLeaf_data_size := 3;
          tableLeaf_data := [];
          indexInternal_keyPk := 3;
          indexInternal_child_page := 3;
          indexLeaf_keyPk := 3 |} |}.

(** * Properties *)

(** ** Reads and writes of a buffer *)

Lemma length_wr (d : list Z) (i v : Z) : length (wr d i v) = length d.
Proof.
  unfold wr. destruct (0 <=? i); [apply length_insert | reflexivity].
Qed.

Lemma rd_wr_eq (d : list Z) (i j v : Z) :
  i = j -> 0 <= i < Z.of_nat (length d) -> rd (wr d i v) j = v.
Proof.
  intros <- Hi. unfold rd, wr.
  destruct (Z.leb_spec 0 i) as [_ | ?]; [| lia].
  rewrite list_lookup_insert_eq by lia. reflexivity.
Qed.

Lemma rd_wr_ne (d : list Z) (i j v : Z) :
  i <> j -> rd (wr d i v) j = rd d j.
Proof.
  intros Hne. unfold rd, wr.
  destruct (Z.leb_spec 0 j) as [Hj | ?]; [| reflexivity].
  destruct (Z.leb_spec 0 i) as [Hi | ?]; [| reflexivity].
  rewrite list_lookup_insert_ne by lia. reflexivity.
Qed.

Lemma rd_outside (d : list Z) (i : Z) :
  Z.of_nat (length d) <= i -> rd d i = 0.
Proof.
  intros Hi. unfold rd. destruct (0 <=? i); [| reflexivity].
  rewrite lookup_ge_None_2 by lia. reflexivity.
Qed.

Lemma rd_ext (d1 d2 : list Z) :
  length d1 = length d2 -> (forall i, rd d1 i = rd d2 i) -> d1 = d2.
Proof.
  intros Hlen Hrd. apply list_eq. intros n.
  destruct (decide (n < length d1)%nat) as [Hn | Hn].
  - destruct (lookup_lt_is_Some_2 d1 n Hn) as [x Hx].
    destruct (lookup_lt_is_Some_2 d2 n ltac:(lia)) as [y Hy].
    specialize (Hrd (Z.of_nat n)). unfold rd in Hrd.
    destruct (Z.leb_spec 0 (Z.of_nat n)); [| lia].
    rewrite Nat2Z.id, Hx, Hy in Hrd. simpl in Hrd. congruence.
  - rewrite !lookup_ge_None_2 by lia. reflexivity.
Qed.

Lemma rd_app_l (d1 d2 : list Z) (i : Z) :
  i < Z.of_nat (length d1) -> rd (d1 ++ d2) i = rd d1 i.
Proof.
  intros Hi. unfold rd. destruct (Z.leb_spec 0 i); [| reflexivity].
  rewrite lookup_app_l by lia. reflexivity.
Qed.

Lemma rd_app_r (d1 d2 : list Z) (i : Z) :
  Z.of_nat (length d1) <= i -> rd (d1 ++ d2) i = rd d2 (i - Z.of_nat (length d1)).
Proof.
  intros Hi. unfold rd.
  destruct (Z.leb_spec 0 i); [| lia].
  destruct (Z.leb_spec 0 (i - Z.of_nat (length d1))); [| lia].
  rewrite lookup_app_r by lia. do 2 f_equal. lia.
Qed.

Lemma rd_take (d : list Z) (n : nat) (i : Z) :
  i < Z.of_nat n -> rd (take n d) i = rd d i.
Proof.
  intros Hi. unfold rd. destruct (Z.leb_spec 0 i); [| reflexivity].
  rewrite lookup_take. destruct (decide (Z.to_nat i < n)%nat); [reflexivity | lia].
Qed.

Lemma rd_drop (d : list Z) (n : nat) (i : Z) :
  0 <= i -> rd (drop n d) i = rd d (Z.of_nat n + i).
Proof.
  intros Hi. unfold rd.
  destruct (Z.leb_spec 0 i); [| lia].
  destruct (Z.leb_spec 0 (Z.of_nat n + i)); [| lia].
  rewrite lookup_drop. do 2 f_equal. lia.
Qed.

Lemma length_write_bytes (bs d : list Z) (p : Z) :
  length (write_bytes d p bs) = length d.
Proof.
  revert d p. induction bs as [| b bs IH]; intros d p; simpl.
  - reflexivity.
  - rewrite IH. apply length_wr.
Qed.

(** Below [p], nothing is written. *)
Lemma rd_write_bytes_below (bs d : list Z) (p j : Z) :
  j < p -> rd (write_bytes d p bs) j = rd d j.
Proof.
  revert d p. induction bs as [| b bs IH]; intros d p Hj; simpl.
  - reflexivity.
  - rewrite IH by lia. apply rd_wr_ne. lia.
Qed.

Lemma rd_write_bytes_above (bs d : list Z) (p j : Z) :
  p + Z.of_nat (length bs) <= j -> rd (write_bytes d p bs) j = rd d j.
Proof.
  revert d p. induction bs as [| b bs IH]; intros d p Hj; simpl in *.
  - reflexivity.
  - rewrite IH by lia. apply rd_wr_ne. lia.
Qed.

Lemma rd_write_bytes_in (bs d : list Z) (p j : Z) :
  0 <= p -> p + Z.of_nat (length bs) <= Z.of_nat (length d) ->
  p <= j < p + Z.of_nat (length bs) ->
  rd (write_bytes d p bs) j = rd bs (j - p).
Proof.
  revert d p. induction bs as [| b bs IH]; intros d p Hp Hlen Hj; simpl in *.
  - lia.
  - destruct (decide (j = p)) as [-> | Hne].
    + rewrite rd_write_bytes_below by lia.
      rewrite rd_wr_eq by lia.
      replace (p - p) with 0 by lia. reflexivity.
    + rewrite IH by (rewrite ?length_wr; lia).
      unfold rd.
      destruct (Z.leb_spec 0 (j - (p + 1))); [| lia].
      destruct (Z.leb_spec 0 (j - p)); [| lia].
      replace (Z.to_nat (j - p)) with (S (Z.to_nat (j - (p + 1)))) by lia.
      reflexivity.
Qed.

Lemma length_read_bytes (d : list Z) (p : Z) (n : nat) :
  length (read_bytes d p n) = n.
Proof. unfold read_bytes. rewrite length_map. apply length_seq. Qed.

Lemma rd_read_bytes (d : list Z) (p : Z) (n : nat) (i : Z) :
  0 <= i < Z.of_nat n -> rd (read_bytes d p n) i = rd d (p + i).
Proof.
  intros Hi. unfold read_bytes. unfold rd at 1.
  destruct (Z.leb_spec 0 i); [| lia].
  rewrite list_lookup_fmap, lookup_seq_lt by lia. simpl.
  f_equal. lia.
Qed.

Lemma length_memmove (d : list Z) (dst src n : Z) :
  length (memmove d dst src n) = length d.
Proof. apply length_write_bytes. Qed.

(** [memmove] inside the buffer: the destination range holds what the source
    range held, whether or not the two overlap; the rest is as before. *)
Lemma rd_memmove (d : list Z) (dst src n j : Z) :
  0 <= dst -> 0 <= n -> dst + n <= Z.of_nat (length d) ->
  rd (memmove d dst src n) j =
  if (dst <=? j) && (j <? dst + n) then rd d (src + (j - dst)) else rd d j.
Proof.
  intros Hdst Hn Hlen. unfold memmove.
  destruct (Z.leb_spec dst j) as [H1 | H1]; simpl.
  - destruct (Z.ltb_spec j (dst + n)) as [H2 | H2].
    + rewrite rd_write_bytes_in by (rewrite ?length_read_bytes; lia).
      apply rd_read_bytes. lia.
    + apply rd_write_bytes_above. rewrite length_read_bytes. lia.
  - apply rd_write_bytes_below. lia.
Qed.

Lemma length_put2byte (d : list Z) (p v : Z) :
  length (put2byte d p v) = length d.
Proof. unfold put2byte. rewrite !length_wr. reflexivity. Qed.

Lemma length_put4byte (d : list Z) (p v : Z) :
  length (put4byte d p v) = length d.
Proof. unfold put4byte. rewrite !length_wr. reflexivity. Qed.

Lemma rd_put2byte_ne (d : list Z) (p v j : Z) :
  j < p \/ p + 2 <= j -> rd (put2byte d p v) j = rd d j.
Proof. intros Hj. unfold put2byte. rewrite !rd_wr_ne by lia. reflexivity. Qed.

Lemma rd_put4byte_ne (d : list Z) (p v j : Z) :
  j < p \/ p + 4 <= j -> rd (put4byte d p v) j = rd d j.
Proof. intros Hj. unfold put4byte. rewrite !rd_wr_ne by lia. reflexivity. Qed.

Lemma get2byte_put2byte (d : list Z) (p v : Z) :
  0 <= p -> p + 2 <= Z.of_nat (length d) -> 0 <= v < 65536 ->
  get2byte (put2byte d p v) p = v.
Proof.
  intros Hp Hlen Hv. unfold get2byte, put2byte.
  rewrite (rd_wr_ne _ (p + 1) p) by lia.
  rewrite !rd_wr_eq by (rewrite ?length_wr; lia).
  rewrite Z.mod_small by (split; [apply Z.div_pos | apply Z.div_lt_upper_bound]; lia).
  pose proof (Z.div_mod v 256 ltac:(lia)). lia.
Qed.

Lemma get4byte_put4byte (d : list Z) (p v : Z) :
  0 <= p -> p + 4 <= Z.of_nat (length d) -> 0 <= v < 4294967296 ->
  get4byte (put4byte d p v) p = v.
Proof.
  intros Hp Hlen Hv. unfold get4byte, put4byte.
  rewrite (rd_wr_ne _ (p + 3) (p + 2)), (rd_wr_ne _ (p + 3) (p + 1)),
    (rd_wr_ne _ (p + 3) p), (rd_wr_ne _ (p + 2) (p + 1)),
    (rd_wr_ne _ (p + 2) p), (rd_wr_ne _ (p + 1) p) by lia.
  rewrite !rd_wr_eq by (rewrite ?length_wr; lia).
  rewrite (Z.mod_small (v / 16777216))
    by (split; [apply Z.div_pos | apply Z.div_lt_upper_bound]; lia).
  replace 16777216 with (256 * 65536) by reflexivity.
  replace 65536 with (256 * 256) by reflexivity.
  rewrite <- !Z.div_div by lia.
  pose proof (Z.div_mod v 256 ltac:(lia)).
  pose proof (Z.div_mod (v / 256) 256 ltac:(lia)).
  pose proof (Z.div_mod (v / 256 / 256) 256 ltac:(lia)).
  lia.
Qed.

Lemma get2byte_ext (d1 d2 : list Z) (p : Z) :
  rd d1 p = rd d2 p -> rd d1 (p + 1) = rd d2 (p + 1) ->
  get2byte d1 p = get2byte d2 p.
Proof. intros H0 H1. unfold get2byte. rewrite H0, H1. reflexivity. Qed.

Lemma get4byte_ext (d1 d2 : list Z) (p : Z) :
  rd d1 p = rd d2 p -> rd d1 (p + 1) = rd d2 (p + 1) ->
  rd d1 (p + 2) = rd d2 (p + 2) -> rd d1 (p + 3) = rd d2 (p + 3) ->
  get4byte d1 p = get4byte d2 p.
Proof.
  intros H0 H1 H2 H3. unfold get4byte. rewrite H0, H1, H2, H3. reflexivity.
Qed.

(** ** The pager's file *)

Lemma file_read_all (d : list Z) (n : nat) :
  length d = n -> file_read d 0 n = d.
Proof.
  intros <-. unfold file_read. rewrite drop_0. apply take_app_length.
Qed.

Lemma length_file_read (f : list Z) (off n : nat) :
  length (file_read f off n) = n.
Proof.
  unfold file_read. rewrite length_take, length_app, length_replicate. lia.
Qed.

Lemma file_read_write (f : list Z) (off : nat) (bs : list Z) :
  file_read (file_write f off bs) off (length bs) = bs.
Proof.
  unfold file_read, file_write.
  rewrite drop_app_length'
    by (rewrite length_take, length_app, length_replicate; lia).
  rewrite <- app_assoc. apply take_app_length.
Qed.

Lemma length_file_write (f : list Z) (off : nat) (bs : list Z) :
  length (file_write f off bs) = ((off + length bs) `max` length f)%nat.
Proof.
  unfold file_write.
  rewrite !length_app, length_take, length_app, length_replicate, length_drop.
  lia.
Qed.

(** ** Store and load of a node *)

Section Pager.
Context {L : Layout}.

Lemma getNodeByPage_writeNode (bt : BTree) (btn : BTreeNode) :
  1 <= npage (page btn) <= n_pages (pager bt) ->
  Z.of_nat (length (data (page btn))) = page_size (pager bt) ->
  let '(_, bt1, w) := chidb_Btree_writeNode bt btn in
  exists bt2,
    chidb_Btree_getNodeByPage bt1 (npage (page btn)) =
      (CHIDB_OK, bt2, Some (packBTN fresh_node (page w))) /\
    n_mempages (pager bt2) = n_mempages (pager bt) + 1.
Proof.
  intros Hn Hlen.
  unfold chidb_Btree_writeNode, chidb_Pager_writePage.
  cbn [npage data pager].
  destruct (Z.leb_spec 1 (npage (page btn))); [| lia].
  destruct (Z.leb_spec (npage (page btn)) (n_pages (pager bt))); [| lia].
  cbn [andb].
  unfold chidb_Btree_getNodeByPage, chidb_Pager_readPage.
  cbn [pager n_pages file page_size n_mempages].
  destruct (Z.leb_spec 1 (npage (page btn))); [| lia].
  destruct (Z.leb_spec (npage (page btn)) (n_pages (pager bt))); [| lia].
  cbn [andb].
  match goal with |- context [file_read ?d 0 ?n] => set (d' := d) end.
  assert (Hd' : length d' = Z.to_nat (page_size (pager bt))).
  { unfold d'. destruct (negb _);
      rewrite ?length_put4byte, !length_put2byte, !length_wr; lia. }
  rewrite (file_read_all d') by assumption.
  unfold page_offset. cbn [page_size].
  rewrite <- Hd'. rewrite file_read_write.
  eexists. split; reflexivity.
Qed.
End Pager.

Section NodeView.
Context {L : Layout} (Hok : header_layout_ok L).

Lemma getHeaderOffset_nonneg (n : Z) : 0 <= getHeaderOffset n.
Proof. unfold getHeaderOffset. destruct (negb (n =? 1)); unfold CHIDB_FILE_HEADER_LEN; lia. Qed.

Lemma getCellOffsetOffset_legal (t : Z) :
  legal_type t ->
  getCellOffsetOffset t =
  if is_leaf_type t then LEAFPG_CELLSOFFSET_OFFSET else INTPG_CELLSOFFSET_OFFSET.
Proof. intros [-> | [-> | [-> | ->]]]; reflexivity. Qed.

Ltac ap f := let H := fresh in pose proof (f L Hok) as H; unfold apart in H.

Lemma writeNode_fields (bt : BTree) (btn : BTreeNode) :
  let r := chidb_Btree_writeNode bt btn in
  r.1.1 = CHIDB_OK /\
  npage (page r.2) = npage (page btn) /\
  length (data (page r.2)) = length (data (page btn)) /\
  type r.2 = type btn /\ free_offset r.2 = free_offset btn /\
  n_cells r.2 = n_cells btn /\ cells_offset r.2 = cells_offset btn /\
  right_page r.2 = right_page btn /\
  celloffset_array r.2 = celloffset_array btn.
Proof.
  unfold chidb_Btree_writeNode.
  destruct (chidb_Pager_writePage _ _) as [r0 p]. simpl.
  repeat split.
  destruct (negb _); rewrite ?length_put4byte, !length_put2byte, !length_wr; reflexivity.
Qed.

Lemma packBTN_writeNode (bt : BTree) (btn btn0 : BTreeNode) :
  legal_type (type btn) -> node_in_range btn -> header_fits btn ->
  let w := (chidb_Btree_writeNode bt btn).2 in
  let n := packBTN btn0 (page w) in
  page n = page w /\
  type n = type btn /\
  free_offset n = free_offset btn /\
  n_cells n = n_cells btn /\
  cells_offset n = cells_offset btn /\
  right_page n =
    (if is_leaf_type (type btn) then right_page btn0 else right_page btn) /\
  celloffset_array n =
    getHeaderOffset (npage (page btn)) + getCellOffsetOffset (type btn) /\
  rd (data (page w)) (getHeaderOffset (npage (page btn)) + PGHEADER_ZERO_OFFSET) = 0.
Proof.
  intros Hty (Ht & Hf & Hn & Hc & Hr) Hfit.
  unfold header_fits in Hfit. rewrite getCellOffsetOffset_legal in Hfit by assumption.
  pose proof (getHeaderOffset_nonneg (npage (page btn))) as Hh.
  unfold chidb_Btree_writeNode.
  destruct (chidb_Pager_writePage _ _) as [r0 p]. simpl.
  set (h := getHeaderOffset (npage (page btn))) in *.
  set (d := data (page btn)) in *.
  unfold packBTN. simpl. fold h.
  set (d5 := put2byte (put2byte (put2byte (wr (wr d _ _) _ _) _ _) _ _) _ _).
  assert (Hlen5 : length d5 = length d)
    by (unfold d5; rewrite !length_put2byte, !length_wr; reflexivity).
  assert (Hleafint : LEAFPG_CELLSOFFSET_OFFSET <= INTPG_CELLSOFFSET_OFFSET)
    by apply (hl_leaf_int L Hok).
  assert (Hbound : h + LEAFPG_CELLSOFFSET_OFFSET <= Z.of_nat (length d))
    by (destruct (is_leaf_type (type btn)); lia).
  assert (Htype5 : rd d5 (h + PGHEADER_PGTYPE_OFFSET) = type btn).
  { unfold d5.
    rewrite rd_put2byte_ne by (ap hl_pgtype_cell; lia).
    rewrite rd_put2byte_ne by (ap hl_pgtype_ncells; lia).
    rewrite rd_put2byte_ne by (ap hl_pgtype_free; lia).
    rewrite rd_wr_ne by (ap hl_pgtype_zero; lia).
    apply rd_wr_eq; [reflexivity |].
    ap hl_pgtype_pos. ap hl_pgtype_in. lia. }
  assert (Hzero5 : rd d5 (h + PGHEADER_ZERO_OFFSET) = 0).
  { unfold d5.
    rewrite rd_put2byte_ne by (ap hl_zero_cell; lia).
    rewrite rd_put2byte_ne by (ap hl_zero_ncells; lia).
    rewrite rd_put2byte_ne by (ap hl_zero_free; lia).
    apply rd_wr_eq; [reflexivity |]. rewrite length_wr.
    ap hl_zero_pos. ap hl_zero_in. lia. }
  assert (Hfree5 : get2byte d5 (h + PGHEADER_FREE_OFFSET) = free_offset btn).
  { unfold d5.
    erewrite get2byte_ext;
      [| rewrite rd_put2byte_ne by (ap hl_free_cell; lia);
         rewrite rd_put2byte_ne by (ap hl_free_ncells; lia); reflexivity ..].
    apply get2byte_put2byte; rewrite ?length_wr;
      [ap hl_free_pos; lia | ap hl_free_in; lia | assumption]. }
  assert (Hn5 : get2byte d5 (h + PGHEADER_NCELLS_OFFSET) = n_cells btn).
  { unfold d5.
    erewrite get2byte_ext;
      [| rewrite rd_put2byte_ne by (ap hl_ncells_cell; lia); reflexivity ..].
    apply get2byte_put2byte; rewrite ?length_put2byte, ?length_wr;
      [ap hl_ncells_pos; lia | ap hl_ncells_in; lia | assumption]. }
  assert (Hc5 : get2byte d5 (h + PGHEADER_CELL_OFFSET) = cells_offset btn).
  { unfold d5.
    apply get2byte_put2byte; rewrite ?length_put2byte, ?length_wr;
      [ap hl_cell_pos; lia | ap hl_cell_in; lia | assumption]. }
  unfold is_leaf_type in *.
  destruct (nonzero (Z.land (type btn) FLAG_LEAF)) eqn:Hleaf; simpl.
  - rewrite Htype5, Hleaf. simpl. repeat split; assumption.
  - rewrite !rd_put4byte_ne by (ap hl_pgtype_rightpg; lia).
    rewrite Htype5, Hleaf. simpl.
    repeat split.
    + rewrite <- Hfree5. apply get2byte_ext;
        apply rd_put4byte_ne; ap hl_free_rightpg; lia.
    + rewrite <- Hn5. apply get2byte_ext;
        apply rd_put4byte_ne; ap hl_ncells_rightpg; lia.
    + rewrite <- Hc5. apply get2byte_ext;
        apply rd_put4byte_ne; ap hl_cell_rightpg; lia.
    + apply get4byte_put4byte; rewrite ?Hlen5;
        [ap hl_rightpg_pos; lia | ap hl_rightpg_in; lia | assumption].
    + rewrite rd_put4byte_ne by (ap hl_zero_rightpg; lia). assumption.
Qed.
End NodeView.

(** The layout taken from the specification is well formed. *)
Lemma spec_layout_header_ok : header_layout_ok spec_layout.
Proof. constructor; unfold apart; simpl; lia. Qed.

Lemma spec_layout_cell_ok : cell_layout_ok spec_layout.
Proof. constructor; simpl; lia. Qed.

(** C9. Store followed by load is the identity on the node view, for each of
    the four node variants and for every page number (the header sits at
    byte 100 of page 1 and at byte 0 of any other page):
    [chidb_Btree_writeNode] answers OK, writes zero in the reserved byte, and
    [packBTN] on the written page yields the type, free_offset, n_cells and
    cells_offset that were stored, and the right_page of an internal node;
    on a leaf [packBTN] leaves right_page as it finds it. The same node comes
    back when the page is read again through the pager. *)
Theorem node_store_load_roundtrip {L : Layout} (Hok : header_layout_ok L)
    (bt : BTree) (btn btn0 : BTreeNode) :
  legal_type (type btn) -> node_in_range btn -> header_fits btn ->
  let st := chidb_Btree_writeNode bt btn in
  let n := packBTN btn0 (page st.2) in
  st.1.1 = CHIDB_OK /\
  type n = type btn /\
  free_offset n = free_offset btn /\
  n_cells n = n_cells btn /\
  cells_offset n = cells_offset btn /\
  (is_leaf_type (type btn) = false -> right_page n = right_page btn) /\
  (is_leaf_type (type btn) = true -> right_page n = right_page btn0) /\
  rd (data (page st.2))
     (getHeaderOffset (npage (page btn)) + PGHEADER_ZERO_OFFSET) = 0 /\
  (1 <= npage (page btn) <= n_pages (pager bt) ->
   Z.of_nat (length (data (page btn))) = page_size (pager bt) ->
   exists bt2 n2,
     chidb_Btree_getNodeByPage st.1.2 (npage (page btn)) =
       (CHIDB_OK, bt2, Some n2) /\
     type n2 = type btn /\
     free_offset n2 = free_offset btn /\
     n_cells n2 = n_cells btn /\
     cells_offset n2 = cells_offset btn /\
     (is_leaf_type (type btn) = false -> right_page n2 = right_page btn)).
Proof.
  intros Hty Hrange Hfit st n.
  destruct (packBTN_writeNode Hok bt btn btn0 Hty Hrange Hfit)
    as (_ & Ht & Hf & Hn & Hc & Hr & _ & Hz).
  destruct (writeNode_fields bt btn) as (Hrc & _).
  split; [exact Hrc |].
  split; [exact Ht |]. split; [exact Hf |]. split; [exact Hn |].
  split; [exact Hc |].
  split; [intros Hl; fold st n in Hr; rewrite Hl in Hr; exact Hr |].
  split; [intros Hl; fold st n in Hr; rewrite Hl in Hr; exact Hr |].
  split; [exact Hz |].
  intros Hnp Hlen.
  pose proof (getNodeByPage_writeNode bt btn Hnp Hlen) as Hget.
  destruct (packBTN_writeNode Hok bt btn fresh_node Hty Hrange Hfit)
    as (_ & Ht' & Hf' & Hn' & Hc' & Hr' & _).
  fold st in Ht', Hf', Hn', Hc', Hr'.
  subst n. unfold st in *.
  destruct (chidb_Btree_writeNode bt btn) as [[r bt1] w].
  destruct Hget as (bt2 & Hget & _).
  exists bt2, (packBTN fresh_node (page w)).
  split; [exact Hget |].
  split; [exact Ht' |]. split; [exact Hf' |]. split; [exact Hn' |].
  split; [exact Hc' |].
  intros Hl. rewrite Hl in Hr'. exact Hr'.
Qed.

Lemma node_store_load_roundtrip_witness :
  let st := chidb_Btree_writeNode (L := spec_layout) example_bt example_node in
  let n := packBTN (L := spec_layout) fresh_node (page st.2) in
  type n = PGTYPE_TABLE_INTERNAL /\ free_offset n = 112 /\ n_cells n = 0 /\
  cells_offset n = 1024 /\ right_page n = 2.
Proof.
  destruct (node_store_load_roundtrip spec_layout_header_ok
              example_bt example_node fresh_node)
    as (_ & Ht & Hf & Hn & Hc & Hr & _).
  - left. reflexivity.
  - unfold node_in_range, example_node, PGTYPE_TABLE_INTERNAL. simpl. lia.
  - unfold header_fits. vm_compute. discriminate.
  - intros st n.
    split; [exact Ht |]. split; [exact Hf |]. split; [exact Hn |].
    split; [exact Hc |]. apply Hr. reflexivity.
Defined.

Lemma length_putVarint32 (d : list Z) (p v : Z) :
  length (put_ignoring_rc d (putVarint32 d p v)) = length d.
Proof.
  unfold putVarint32.
  repeat (destruct (_ <? _); simpl;
          rewrite ?length_write_bytes, ?length_wr; try reflexivity).
Qed.

Lemma rd_putVarint32_below (d : list Z) (p v j : Z) :
  j < p -> rd (put_ignoring_rc d (putVarint32 d p v)) j = rd d j.
Proof.
  intros Hj. unfold putVarint32.
  repeat (destruct (_ <? _); cbn [put_ignoring_rc];
          rewrite ?rd_write_bytes_below, ?rd_wr_ne by lia; try reflexivity).
Qed.

Lemma get2byte_shift (d1 d2 : list Z) (p q : Z) :
  rd d1 p = rd d2 q -> rd d1 (p + 1) = rd d2 (q + 1) ->
  get2byte d1 p = get2byte d2 q.
Proof. intros H0 H1. unfold get2byte. rewrite H0, H1. reflexivity. Qed.

(** ** Cell insertion *)

Section Cells.
Context {L : Layout} (Hcl : cell_layout_ok L).

Lemma length_unpackBTC (d : list Z) (head : Z) (btc : BTreeCell) :
  length (unpackBTC d head btc) = length d.
Proof.
  unfold unpackBTC.
  repeat (destruct (_ =? _);
          rewrite ?length_write_bytes, ?length_put4byte, ?length_putVarint32;
          try reflexivity).
Qed.

Lemma rd_unpackBTC_below (d : list Z) (head : Z) (btc : BTreeCell) (j : Z) :
  j < head -> rd (unpackBTC d head btc) j = rd d j.
Proof.
  intros Hj. destruct Hcl. unfold unpackBTC.
  repeat (destruct (_ =? _);
          rewrite ?rd_write_bytes_below, ?rd_put4byte_ne, ?rd_putVarint32_below
            by lia;
          try reflexivity).
Qed.

(** C5. When [k <= n_cells] and the cell and its two-byte array entry fit in
    the free region, [chidb_Btree_insertCell] answers OK; cells_offset goes
    down by [getCellSize cell] and the cell area from the new cells_offset on
    holds the cell as [unpackBTC] serialises it there; the array entries at
    positions [k .. n_cells - 1] are found one slot (two bytes) higher and
    those below [k] stay; entry [k] is the new cell's offset; n_cells goes up
    by 1 and free_offset by 2. The node is one that satisfies the invariants
    of section 3 ([node_ok]), which the call preserves. *)
Theorem insertCell_effect (btn : BTreeNode) (k : Z) (cell : BTreeCell) :
  node_ok btn ->
  0 <= k <= n_cells btn ->
  0 <= getCellSize cell ->
  getCellSize cell + 2 <= cells_offset btn - free_offset btn ->
  let r := chidb_Btree_insertCell btn k cell in
  let d := data (page btn) in
  let d' := data (page r.2) in
  let arr := celloffset_array btn in
  r.1 = CHIDB_OK /\
  cells_offset r.2 = cells_offset btn - getCellSize cell /\
  (forall i, cells_offset r.2 <= i ->
     rd d' i = rd (unpackBTC d (cells_offset r.2) cell) i) /\
  (forall i, k <= i < n_cells btn ->
     get2byte d' (arr + 2 * (i + 1)) = get2byte d (arr + 2 * i)) /\
  (forall i, 0 <= i < k ->
     get2byte d' (arr + 2 * i) = get2byte d (arr + 2 * i)) /\
  get2byte d' (arr + 2 * k) = cells_offset r.2 /\
  n_cells r.2 = n_cells btn + 1 /\
  free_offset r.2 = free_offset btn + 2 /\
  type r.2 = type btn /\
  right_page r.2 = right_page btn /\
  celloffset_array r.2 = arr /\
  npage (page r.2) = npage (page btn) /\
  length d' = length d /\
  node_ok r.2.
Proof.
  intros (Harr & Hn & Hfree & Hco & Hco16) Hk Hsz Hfit r d d' arr.
  subst r d d' arr. unfold chidb_Btree_insertCell.
  destruct (Z.gtb_spec k (n_cells btn)) as [? | _]; [lia |].
  cbn [fst snd page data npage cells_offset n_cells free_offset type
       right_page celloffset_array].
  set (d := data (page btn)) in *.
  set (arr := celloffset_array btn) in *.
  assert (Hco' : u16 (cells_offset btn - getCellSize cell)
                 = cells_offset btn - getCellSize cell)
    by (unfold u16; apply Z.mod_small; lia).
  assert (Hn' : u16 (n_cells btn + 1) = n_cells btn + 1)
    by (unfold u16; apply Z.mod_small; lia).
  assert (Hf' : u16 (free_offset btn + 2) = free_offset btn + 2)
    by (unfold u16; apply Z.mod_small; lia).
  rewrite Hco', Hn', Hf'.
  set (co := cells_offset btn - getCellSize cell) in *.
  set (d1 := unpackBTC d co cell).
  assert (Hlen1 : length d1 = length d) by apply length_unpackBTC.
  set (d2 := if k <? n_cells btn
             then memmove d1 (arr + 2 * (k + 1)) (arr + 2 * k)
                    (2 * (n_cells btn - k))
             else d1).
  assert (Hlen2 : length d2 = length d)
    by (unfold d2; destruct (k <? n_cells btn);
        rewrite ?length_memmove; assumption).
  assert (Hrd2 : forall j,
             rd d2 j =
             if (arr + 2 * (k + 1) <=? j) && (j <? arr + 2 * (n_cells btn + 1))
             then rd d1 (j - 2) else rd d1 j).
  { intros j. unfold d2.
    destruct (Z.ltb_spec k (n_cells btn)) as [Hlt | Hge].
    - rewrite rd_memmove by lia.
      replace (arr + 2 * (k + 1) + 2 * (n_cells btn - k))
        with (arr + 2 * (n_cells btn + 1)) by lia.
      destruct (_ && _); [f_equal; lia | reflexivity].
    - destruct (Z.leb_spec (arr + 2 * (k + 1)) j);
        destruct (Z.ltb_spec j (arr + 2 * (n_cells btn + 1)));
        simpl; try reflexivity; lia. }
  assert (Hrd1 : forall j, j < co -> rd d1 j = rd d j)
    by (intros j Hj; apply rd_unpackBTC_below; assumption).
  assert (Hlen3 : length (put2byte d2 (arr + 2 * k) co) = length d)
    by (rewrite length_put2byte; exact Hlen2).
  repeat split; cbn [page data celloffset_array n_cells free_offset
                     cells_offset]; try lia.
  - intros i Hi.
    rewrite rd_put2byte_ne by lia. rewrite Hrd2.
    destruct (Z.ltb_spec i (arr + 2 * (n_cells btn + 1))); [lia |].
    rewrite andb_false_r. reflexivity.
  - intros i Hi. apply get2byte_shift.
    + rewrite rd_put2byte_ne by lia. rewrite Hrd2.
      destruct (Z.leb_spec (arr + 2 * (k + 1)) (arr + 2 * (i + 1))); [| lia].
      destruct (Z.ltb_spec (arr + 2 * (i + 1)) (arr + 2 * (n_cells btn + 1)));
        [| lia].
      simpl. rewrite Hrd1 by lia. f_equal. lia.
    + rewrite rd_put2byte_ne by lia. rewrite Hrd2.
      destruct (Z.leb_spec (arr + 2 * (k + 1)) (arr + 2 * (i + 1) + 1)); [| lia].
      destruct (Z.ltb_spec (arr + 2 * (i + 1) + 1)
                  (arr + 2 * (n_cells btn + 1))); [| lia].
      simpl. rewrite Hrd1 by lia. f_equal. lia.
  - intros i Hi. apply get2byte_ext.
    + rewrite rd_put2byte_ne by lia. rewrite Hrd2.
      destruct (Z.leb_spec (arr + 2 * (k + 1)) (arr + 2 * i)); [lia |].
      simpl. apply Hrd1. lia.
    + rewrite rd_put2byte_ne by lia. rewrite Hrd2.
      destruct (Z.leb_spec (arr + 2 * (k + 1)) (arr + 2 * i + 1)); [lia |].
      simpl. apply Hrd1. lia.
  - apply get2byte_put2byte; rewrite ?Hlen2; lia.
Qed.

End Cells.

Lemma insertCell_effect_witness :
  let r := chidb_Btree_insertCell (L := spec_layout) example_leaf 0
             (table_cell 1 hard_drive) in
  r.1 = CHIDB_OK /\ cells_offset r.2 = 1006 /\ n_cells r.2 = 1 /\
  free_offset r.2 = 10 /\ get2byte (data (page r.2)) 8 = 1006.
Proof.
  destruct (insertCell_effect spec_layout_cell_ok example_leaf 0
              (table_cell 1 hard_drive))
    as (Hrc & Hco & _ & _ & _ & Hk & Hn & Hf & _).
  - unfold node_ok. vm_compute. repeat split; discriminate.
  - vm_compute. split; discriminate.
  - vm_compute. discriminate.
  - vm_compute. discriminate.
  - intros r.
    split; [exact Hrc |]. split; [exact Hco |]. split; [exact Hn |].
    split; [exact Hf |]. exact Hk.
Defined.

(** C6. With a position [k > n_cells], [chidb_Btree_insertCell] answers
    CELLNO and writes nothing: the node comes back with the same fields and
    the same page bytes. The position [n_cells + 1] is such a position. *)
Theorem insertCell_bad_position {L : Layout} (btn : BTreeNode) (k : Z)
    (cell : BTreeCell) :
  n_cells btn < k ->
  chidb_Btree_insertCell btn k cell = (CHIDB_ECELLNO, btn) /\
  chidb_Btree_insertCell btn (n_cells btn + 1) cell = (CHIDB_ECELLNO, btn).
Proof.
  intros Hk. unfold chidb_Btree_insertCell.
  destruct (Z.gtb_spec k (n_cells btn)); [| lia].
  destruct (Z.gtb_spec (n_cells btn + 1) (n_cells btn)); [| lia].
  split; reflexivity.
Qed.

Lemma insertCell_bad_position_witness :
  chidb_Btree_insertCell (L := spec_layout) example_leaf 1
    (table_cell 1 hard_drive) = (CHIDB_ECELLNO, example_leaf).
Proof.
  apply (insertCell_bad_position (L := spec_layout) example_leaf 1
           (table_cell 1 hard_drive)).
  vm_compute. reflexivity.
Defined.

(** ** The file header *)

Lemma read_bytes_S (d : list Z) (p : Z) (n : nat) :
  read_bytes d p (S n) = rd d p :: read_bytes d (p + 1) n.
Proof.
  unfold read_bytes. simpl. rewrite Z.add_0_r. f_equal.
  rewrite <- seq_shift, map_map. apply map_ext. intros k. f_equal. lia.
Qed.

Lemma read_bytes_take (d : list Z) (n : nat) :
  (n <= length d)%nat -> read_bytes d 0 n = take n d.
Proof.
  intros Hn. apply rd_ext.
  - rewrite length_read_bytes, length_take. lia.
  - intros i. destruct (decide (0 <= i < Z.of_nat n)) as [Hi | Hi].
    + rewrite rd_read_bytes, rd_take by lia. reflexivity.
    + destruct (decide (i < 0)).
      * unfold rd. destruct (Z.leb_spec 0 i); [lia | reflexivity].
      * rewrite !rd_outside
          by (rewrite ?length_read_bytes, ?length_take; lia).
        reflexivity.
Qed.

(** [strncmp] answers 0 exactly when the buffer holds the characters of the
    string and then a zero byte, provided the comparison is long enough to
    reach that byte. *)
Lemma strncmp_zero_iff (s : list Z) (n : nat) (d : list Z) (p : Z) :
  Forall (fun c => c <> 0) s -> (length s < n)%nat ->
  strncmp d p s n = 0 <-> read_bytes d p (S (length s)) = s ++ [0].
Proof.
  revert n d p. induction s as [| c s IH]; intros n d p Hs Hn.
  - destruct n as [| n]; [simpl in Hn; lia |]. simpl.
    rewrite read_bytes_S. unfold read_bytes. simpl.
    destruct (Z.eqb_spec (rd d p) 0) as [-> | Hne].
    + split; reflexivity.
    + split; [intros ?; exfalso; lia | intros [= ?]; lia].
  - destruct n as [| n]; [simpl in Hn; lia |].
    apply Forall_cons in Hs as [Hc Hs]. simpl in Hc.
    cbn [strncmp hd tl length app]. rewrite read_bytes_S.
    destruct (Z.eqb_spec (rd d p) c) as [-> | Hne].
    + destruct (Z.eqb_spec c 0) as [? | _]; [lia |].
      rewrite IH by (simpl in Hn; first [assumption | lia]).
      split; [intros ->; reflexivity | intros [= ?]; assumption].
    + split; [intros ?; exfalso; lia | intros [= ? ?]; lia].
Qed.

Lemma strncmp_ext (n : nat) (s d1 d2 : list Z) (p : Z) :
  (forall j, p <= j < p + Z.of_nat n -> rd d1 j = rd d2 j) ->
  strncmp d1 p s n = strncmp d2 p s n.
Proof.
  revert s p. induction n as [| n IH]; intros s p Hrd; [reflexivity |].
  cbn [strncmp]. rewrite (Hrd p) by lia.
  rewrite (IH (tl s) (p + 1)) by (intros j Hj; apply Hrd; lia).
  reflexivity.
Qed.

Lemma nonzero_false (x : Z) : nonzero x = false <-> x = 0.
Proof.
  unfold nonzero. rewrite negb_false_iff. apply Z.eqb_eq.
Qed.

Lemma strncmp_magic (buf : list Z) :
  (16 <= length buf)%nat ->
  strncmp buf 0 (c_str "SQLite format 3") 16 = 0 <-> take 16 buf = magic.
Proof.
  intros Hlen.
  rewrite strncmp_zero_iff.
  - change (S (length (c_str "SQLite format 3"))) with 16%nat.
    rewrite read_bytes_take by assumption. reflexivity.
  - vm_compute. repeat constructor; discriminate.
  - vm_compute. lia.
Qed.

Lemma verifyHeader_ok_iff (buf : list Z) :
  (16 <= length buf)%nat ->
  verifyHeader buf = CHIDB_OK <-> header_fields_ok buf.
Proof.
  intros Hlen. unfold verifyHeader, header_fields_ok.
  rewrite <- (strncmp_magic buf Hlen).
  match goal with |- (if ?b then _ else _) = _ <-> _ =>
    destruct b eqn:E end.
  - split; [discriminate |].
    intros (H0 & H1 & H2 & H3 & H4 & H5 & H6 & H7 & H8 & H9 & H10 & H11
            & H12 & H13).
    rewrite H0, H1, H2, H3, H4, H5, H6, H7, H8, H9, H10, H11, H12, H13 in E.
    discriminate E.
  - split; [intros _ | reflexivity].
    rewrite !orb_false_iff, !negb_false_iff, !Z.eqb_eq, nonzero_false in E.
    tauto.
Qed.

Lemma verifyHeader_codes (buf : list Z) :
  verifyHeader buf = CHIDB_OK \/ verifyHeader buf = CHIDB_ECORRUPTHEADER.
Proof. unfold verifyHeader. destruct (_ || _); auto. Qed.

(** Only the compared bytes count. *)
Lemma verifyHeader_ext (b1 b2 : list Z) :
  (forall j, 0 <= j < 16 \/ 18 <= j < 24 \/ 32 <= j < 40 \/ 44 <= j < 60 \/
             64 <= j < 68 -> rd b1 j = rd b2 j) ->
  verifyHeader b1 = verifyHeader b2.
Proof.
  intros H. unfold verifyHeader.
  rewrite (strncmp_ext 16 _ b1 b2) by (intros j Hj; apply H; lia).
  rewrite (H 18), (H 19), (H 20), (H 21), (H 22), (H 23) by lia.
  rewrite (get4byte_ext b1 b2 32), (get4byte_ext b1 b2 36),
    (get4byte_ext b1 b2 44), (get4byte_ext b1 b2 48),
    (get4byte_ext b1 b2 52), (get4byte_ext b1 b2 56),
    (get4byte_ext b1 b2 64) by (apply H; lia).
  reflexivity.
Qed.

Lemma open_existing {L : Layout} (buf rest : list Z) :
  length buf = 100%nat ->
  (chidb_Btree_open (buf ++ rest)).1 = verifyHeader buf.
Proof.
  intros Hlen. unfold chidb_Btree_open, chidb_Pager_open, chidb_Pager_readHeader.
  cbn [file].
  destruct (Z.ltb_spec (Z.of_nat (length (buf ++ rest))) 100) as [Hlt | _];
    [rewrite length_app in Hlt; lia |].
  rewrite take_app_length' by lia.
  destruct (verifyHeader_codes buf) as [-> | ->]; reflexivity.
Qed.

(** C7. On a 100-byte header buffer, [verifyHeader] answers OK exactly when
    every required field has its canonical value: bytes 0..15 are the magic
    string and a zero byte, bytes 18 and 19 are 1, byte 20 is 0, byte 21 is
    64, bytes 22 and 23 are 32, the big-endian words at 32, 36, 52 and 64
    are 0, those at 44 and 56 are 1 and the one at 48 is 20000. Any mismatch
    gives CORRUPT_HEADER. The words at offsets 24, 40 and 60 never change
    the answer. [chidb_Btree_open] on a file that starts with the buffer
    answers what [verifyHeader] answers, so a valid header with one byte of
    the magic changed makes it answer CORRUPT_HEADER. *)
Theorem verifyHeader_spec (buf : list Z) :
  length buf = 100%nat ->
  (verifyHeader buf = CHIDB_OK <-> header_fields_ok buf) /\
  (~ header_fields_ok buf -> verifyHeader buf = CHIDB_ECORRUPTHEADER) /\
  (forall off v, 24 <= off < 28 \/ 40 <= off < 44 \/ 60 <= off < 64 ->
     verifyHeader (wr buf off v) = verifyHeader buf) /\
  (forall (L : Layout) rest,
     (chidb_Btree_open (buf ++ rest)).1 = verifyHeader buf) /\
  (forall (L : Layout) rest i v,
     header_fields_ok buf -> 0 <= i < 16 -> v <> rd buf i ->
     (chidb_Btree_open (wr buf i v ++ rest)).1 = CHIDB_ECORRUPTHEADER).
Proof.
  intros Hlen.
  assert (Hiff : forall b, length b = 100%nat ->
            (verifyHeader b = CHIDB_OK <-> header_fields_ok b))
    by (intros b Hb; apply verifyHeader_ok_iff; lia).
  assert (Hbad : forall b, length b = 100%nat -> ~ header_fields_ok b ->
            verifyHeader b = CHIDB_ECORRUPTHEADER).
  { intros b Hb Hno. destruct (verifyHeader_codes b) as [Hv | Hv];
      [| exact Hv]. apply Hiff in Hv; [contradiction | assumption]. }
  split; [apply Hiff; assumption |].
  split; [apply Hbad; assumption |].
  split.
  { intros off v Hoff. apply verifyHeader_ext.
    intros j Hj. apply rd_wr_ne. lia. }
  split.
  { intros L rest. apply open_existing. assumption. }
  intros L rest i v Hok Hi Hv.
  rewrite open_existing by (rewrite length_wr; assumption).
  apply Hbad; [rewrite length_wr; assumption |].
  intros (Hmagic' & _). destruct Hok as (Hmagic & _).
  apply Hv.
  rewrite <- (rd_take buf 16 i), <- (rd_wr_eq buf i i v) by lia.
  rewrite <- (rd_take (wr buf i v) 16 i) by lia.
  rewrite Hmagic, Hmagic'. reflexivity.
Qed.

(** ** Opening a new file *)

Lemma write_file_header_image (d : list Z) :
  (68 <= length d)%nat ->
  write_file_header d =
  header_prefix (rd d 28) (rd d 29) (rd d 30) (rd d 31) ++ drop 68 d.
Proof.
  intros Hlen.
  do 68 (destruct d as [| ? d]; [simpl in Hlen; lia |]).
  vm_compute. reflexivity.
Qed.

Lemma length_write_file_header (d : list Z) :
  length (write_file_header d) = length d.
Proof.
  unfold write_file_header, strncpy.
  rewrite !length_put4byte, !length_wr, length_put2byte, length_write_bytes.
  reflexivity.
Qed.

Lemma rd_write_file_header_high (d : list Z) (i : Z) :
  (68 <= length d)%nat -> 68 <= i -> rd (write_file_header d) i = rd d i.
Proof.
  intros Hlen Hi. rewrite write_file_header_image by assumption.
  rewrite rd_app_r by (simpl; lia).
  change (Z.of_nat (length (header_prefix _ _ _ _))) with 68.
  rewrite rd_drop by lia. f_equal. lia.
Qed.

Lemma verifyHeader_written (d : list Z) :
  (100 <= length d)%nat ->
  verifyHeader (take 100 (write_file_header d)) = CHIDB_OK /\
  take 24 (write_file_header d) = magic ++ [4; 0; 1; 1; 0; 64; 32; 32].
Proof.
  intros Hlen. rewrite write_file_header_image by lia.
  generalize (rd d 28) (rd d 29) (rd d 30) (rd d 31) (drop 68 d).
  intros b28 b29 b30 b31 rest. split; vm_compute; reflexivity.
Qed.

Lemma file_read_empty (off n : nat) : file_read [] off n = replicate n 0.
Proof.
  unfold file_read. rewrite drop_nil, app_nil_l.
  rewrite take_ge by (rewrite length_replicate; lia). reflexivity.
Qed.

Lemma file_write_first (f bs : list Z) :
  (length f <= length bs)%nat -> file_write f 0 bs = bs.
Proof.
  intros Hlen. unfold file_write. rewrite take_0, app_nil_l.
  rewrite drop_ge by lia. apply app_nil_r.
Qed.

Section Open.
Context {L : Layout} (Hok : header_layout_ok L).
Hypothesis Hpage : CHIDB_FILE_HEADER_LEN + LEAFPG_CELLSOFFSET_OFFSET <= DEFAULT_PAGE_SIZE.

Lemma length_first_page : length first_page = 1024%nat.
Proof.
  unfold first_page.
  destruct (writeNode_fields {| pager := new_pager 1 |} first_node)
    as (_ & _ & -> & _).
  reflexivity.
Qed.

Lemma writeNode_first :
  chidb_Btree_writeNode {| pager := new_pager 1 |} first_node =
  (CHIDB_OK,
   {| pager := {| file := first_page; page_size := 1024; n_pages := 1;
                  n_mempages := 1 |} |},
   (chidb_Btree_writeNode {| pager := new_pager 1 |} first_node).2).
Proof.
  pose proof length_first_page as Hlen. unfold first_page in *.
  unfold chidb_Btree_writeNode in *.
  unfold chidb_Pager_writePage in *.
  cbn [npage page first_node pager new_pager n_pages andb Z.leb Z.compare
       Pos.compare file page_size n_mempages snd data] in *.
  match goal with |- context [file_read ?d _ _] => set (d1 := d) in * end.
  change (Z.to_nat 1024) with 1024%nat.
  rewrite (file_read_all d1) by assumption.
  change (page_offset _ 1) with 0%nat.
  rewrite file_write_first by (simpl; lia).
  reflexivity.
Qed.

Lemma open_new_file :
  chidb_Btree_open [] =
  (CHIDB_OK,
   {| pager := {| file := write_file_header first_page; page_size := 1024;
                  n_pages := 1; n_mempages := 0 |} |}).
Proof.
  unfold chidb_Btree_open, chidb_Pager_open.
  change (chidb_Pager_readHeader _) with (CHIDB_NOHEADER, replicate 100 0).
  cbv iota beta.
  change (chidb_Pager_setPageSize _ DEFAULT_PAGE_SIZE)
    with {| file := []; page_size := 1024; n_pages := 0; n_mempages := 0 |}.
  unfold chidb_Btree_newNode, chidb_Pager_allocatePage.
  cbn [pager file page_size n_pages n_mempages].
  unfold chidb_Btree_initEmptyNode.
  change (chidb_Pager_readPage _ (0 + 1))
    with (CHIDB_OK, new_pager 1,
          Some {| npage := 1; data := replicate 1024 0 |}).
  cbv iota beta.
  change (getHeaderOffset (0 + 1) + getCellOffsetOffset PGTYPE_TABLE_LEAF)
    with (CHIDB_FILE_HEADER_LEN + LEAFPG_CELLSOFFSET_OFFSET).
  change (page_size (new_pager 1)) with 1024.
  fold first_node. rewrite writeNode_first.
  cbv iota beta. unfold chidb_Pager_releaseMemPage.
  cbn [pager file page_size n_pages n_mempages].
  unfold chidb_Pager_readPage.
  cbn [pager file page_size n_pages n_mempages].
  change ((1 <=? 1) && (1 <=? 1)) with true. cbv iota beta.
  change (page_offset _ 1) with 0%nat.
  change (Z.to_nat 1024) with 1024%nat.
  rewrite file_read_all by apply length_first_page.
  unfold chidb_Pager_writePage.
  cbn [npage data pager file page_size n_pages n_mempages].
  change ((1 <=? 1) && (1 <=? 1)) with true. cbv iota beta.
  cbn [npage data pager file page_size n_pages n_mempages].
  change (page_offset _ 1) with 0%nat.
  change (Z.to_nat 1024) with 1024%nat.
  rewrite file_read_all
    by (rewrite length_write_file_header; apply length_first_page).
  rewrite file_write_first
    by (rewrite length_write_file_header, length_first_page; lia).
  reflexivity.
Qed.


(** [packBTN] reads the page from the node header on. *)
Lemma packBTN_agree (b : BTreeNode) (n : Z) (d1 d2 : list Z) :
  (forall i, getHeaderOffset n <= i -> rd d1 i = rd d2 i) ->
  let n1 := packBTN b {| npage := n; data := d1 |} in
  let n2 := packBTN b {| npage := n; data := d2 |} in
  type n1 = type n2 /\ free_offset n1 = free_offset n2 /\
  n_cells n1 = n_cells n2 /\ cells_offset n1 = cells_offset n2 /\
  right_page n1 = right_page n2 /\
  celloffset_array n1 = celloffset_array n2.
Proof.
  intros Hrd. destruct Hok. unfold packBTN.
  cbn [npage data type free_offset n_cells cells_offset right_page
       celloffset_array].
  rewrite (Hrd (getHeaderOffset n + PGHEADER_PGTYPE_OFFSET)) by lia.
  rewrite (get2byte_ext d1 d2 (getHeaderOffset n + PGHEADER_FREE_OFFSET)),
    (get2byte_ext d1 d2 (getHeaderOffset n + PGHEADER_NCELLS_OFFSET)),
    (get2byte_ext d1 d2 (getHeaderOffset n + PGHEADER_CELL_OFFSET)),
    (get4byte_ext d1 d2 (getHeaderOffset n + PGHEADER_RIGHTPG_OFFSET))
    by (apply Hrd; lia).
  repeat split.
Qed.

Lemma new_file_root :
  let bt := (chidb_Btree_open []).2 in
  let root := packBTN fresh_node {| npage := 1; data := file (pager bt) |} in
  exists bt2,
    chidb_Btree_getNodeByPage bt 1 = (CHIDB_OK, bt2, Some root) /\
    n_mempages (pager bt2) = 1 /\
    file (pager bt2) = file (pager bt) /\
    type root = PGTYPE_TABLE_LEAF /\ n_cells root = 0 /\
    free_offset root = CHIDB_FILE_HEADER_LEN + LEAFPG_CELLSOFFSET_OFFSET /\
    cells_offset root = 1024 /\
    celloffset_array root = CHIDB_FILE_HEADER_LEN + LEAFPG_CELLSOFFSET_OFFSET.
Proof.
  rewrite open_new_file. cbn [snd].
  unfold chidb_Btree_getNodeByPage, chidb_Pager_readPage.
  cbn [pager file page_size n_pages n_mempages].
  change ((1 <=? 1) && (1 <=? 1)) with true. cbv iota beta.
  change (page_offset _ 1) with 0%nat.
  change (Z.to_nat 1024) with 1024%nat.
  rewrite file_read_all
    by (rewrite length_write_file_header; apply length_first_page).
  eexists. split; [reflexivity |].
  split; [reflexivity |]. split; [reflexivity |].
  assert (Hleaf : 1 <= LEAFPG_CELLSOFFSET_OFFSET)
    by (pose proof (hl_pgtype_pos L Hok); pose proof (hl_pgtype_in L Hok); lia).
  unfold CHIDB_FILE_HEADER_LEN, DEFAULT_PAGE_SIZE in Hpage.
  assert (Hu : u16 (CHIDB_FILE_HEADER_LEN + LEAFPG_CELLSOFFSET_OFFSET)
               = CHIDB_FILE_HEADER_LEN + LEAFPG_CELLSOFFSET_OFFSET)
    by (unfold u16, CHIDB_FILE_HEADER_LEN; apply Z.mod_small; lia).
  destruct (packBTN_writeNode Hok {| pager := new_pager 1 |} first_node
              fresh_node)
    as (_ & Ht & Hf & Hn & Hc & _ & Ha & _).
  { right. left. reflexivity. }
  { unfold node_in_range, first_node.
    cbn [type free_offset n_cells cells_offset right_page].
    rewrite Hu. unfold PGTYPE_TABLE_LEAF, CHIDB_FILE_HEADER_LEN. lia. }
  { unfold header_fits, first_node. cbn [page npage data type].
    change (getHeaderOffset 1) with 100.
    change (getCellOffsetOffset PGTYPE_TABLE_LEAF)
      with LEAFPG_CELLSOFFSET_OFFSET.
    rewrite length_replicate. lia. }
  destruct (writeNode_fields {| pager := new_pager 1 |} first_node)
    as (_ & Hnp & _).
  fold first_page in Ht, Hf, Hn, Hc, Ha.
  destruct (page (chidb_Btree_writeNode {| pager := new_pager 1 |}
                    first_node).2) as [np dt] eqn:Hpg.
  cbn [npage first_node page] in Hnp. subst np.
  assert (Hdt : dt = first_page) by (unfold first_page; rewrite Hpg; reflexivity).
  subst dt.
  destruct (packBTN_agree fresh_node 1 (write_file_header first_page)
              first_page)
    as (Ht' & Hf' & Hn' & Hc' & _ & Ha').
  { intros i Hi. change (getHeaderOffset 1) with 100 in Hi.
    apply rd_write_file_header_high; [rewrite length_first_page |]; lia. }
  cbv zeta in Ht', Hf', Hn', Hc', Ha'.
  rewrite Ht', Hf', Hn', Hc', Ha'.
  rewrite Ht, Hf, Hn, Hc, Ha.
  cbn [type free_offset n_cells cells_offset first_node page npage].
  rewrite Hu.
  change (getHeaderOffset 1) with CHIDB_FILE_HEADER_LEN.
  change (getCellOffsetOffset PGTYPE_TABLE_LEAF)
    with LEAFPG_CELLSOFFSET_OFFSET.
  repeat split.
Qed.


(** C8. Opening a file that has no header (it does not exist or holds no
    byte) answers OK and leaves a file of one page of the default size 1024.
    Its first 100 bytes are a header that [verifyHeader] accepts: bytes
    0..15 are the magic string and a zero byte, bytes 16..17 are 0x04 0x00,
    bytes 18..23 are 1, 1, 0, 64, 32, 32. Page 1 holds, from byte 100 on, the
    header of an empty table leaf: the tag is 0x0D and n_cells is 0, and
    loading page 1 gives that node. *)
Theorem open_new_file_spec :
  let r := chidb_Btree_open [] in
  let f := file (pager r.2) in
  r.1 = CHIDB_OK /\
  length f = 1024%nat /\
  page_size (pager r.2) = DEFAULT_PAGE_SIZE /\
  n_pages (pager r.2) = 1 /\
  n_mempages (pager r.2) = 0 /\
  verifyHeader (take 100 f) = CHIDB_OK /\
  take 24 f = magic ++ [4; 0; 1; 1; 0; 64; 32; 32] /\
  rd f (CHIDB_FILE_HEADER_LEN + PGHEADER_PGTYPE_OFFSET) = 13 /\
  get2byte f (CHIDB_FILE_HEADER_LEN + PGHEADER_NCELLS_OFFSET) = 0 /\
  exists bt2 root,
    chidb_Btree_getNodeByPage r.2 1 = (CHIDB_OK, bt2, Some root) /\
    type root = PGTYPE_TABLE_LEAF /\
    n_cells root = 0 /\
    free_offset root = CHIDB_FILE_HEADER_LEN + LEAFPG_CELLSOFFSET_OFFSET /\
    cells_offset root = 1024.
Proof.
  intros r f.
  destruct new_file_root as (bt2 & Hget & _ & _ & Ht & Hn & Hf & Hc & _).
  fold r f in Hget, Ht, Hn, Hf, Hc.
  assert (Hr : r = (CHIDB_OK,
            {| pager := {| file := write_file_header first_page;
                           page_size := 1024; n_pages := 1;
                           n_mempages := 0 |} |})) by apply open_new_file.
  assert (Hfile : f = write_file_header first_page)
    by (unfold f; rewrite Hr; reflexivity).
  destruct (verifyHeader_written first_page) as (Hv & Hm);
    [rewrite length_first_page; lia |].
  split; [rewrite Hr; reflexivity |].
  split; [rewrite Hfile, length_write_file_header; apply length_first_page |].
  split; [rewrite Hr; reflexivity |].
  split; [rewrite Hr; reflexivity |].
  split; [rewrite Hr; reflexivity |].
  split; [rewrite Hfile; exact Hv |].
  split; [rewrite Hfile; exact Hm |].
  split; [exact Ht |].
  split; [exact Hn |].
  eexists _, _. split; [exact Hget |].
  split; [exact Ht |]. split; [exact Hn |]. split; [exact Hf |]. exact Hc.
Qed.

End Open.

Section Find.
Context {L : Layout}.

Lemma getNodeByPage_ok (bt bt1 : BTree) (n : Z) (btn : BTreeNode) :
  chidb_Btree_getNodeByPage bt n = (CHIDB_OK, bt1, Some btn) ->
  n_mempages (pager bt1) = n_mempages (pager bt) + 1 /\
  file (pager bt1) = file (pager bt) /\
  page_size (pager bt1) = page_size (pager bt) /\
  n_pages (pager bt1) = n_pages (pager bt).
Proof.
  unfold chidb_Btree_getNodeByPage, chidb_Pager_readPage.
  destruct (_ && _); [| discriminate].
  intros [= <- _]. repeat split.
Qed.

(** What [chidb_Btree_find] does on a tree whose root has no cell. *)
Lemma find_no_cells (bt bt1 : BTree) (root key : Z) (btn : BTreeNode)
    (fuel : nat) :
  chidb_Btree_getNodeByPage bt root = (CHIDB_OK, bt1, Some btn) ->
  n_cells btn = 0 ->
  chidb_Btree_find (S fuel) bt root key =
    Some (CHIDB_ENOTFOUND, (chidb_Btree_freeMemNode bt1 btn).2, None).
Proof.
  intros Hget Hn. unfold chidb_Btree_find. cbn [chidb_Btree_find_loop].
  rewrite Hget. unfold nodeBTCArray. rewrite Hn. reflexivity.
Qed.

(** C10. On a tree whose root node has no cell, [chidb_Btree_find] returns
    (with any fuel but none) and answers NOT_FOUND, which is not the EMPTY
    code; no out-parameter is set, the node that was loaded is released (as
    many pages are held after the call as before it) and the file is as it
    was. *)
Theorem find_empty_root (bt bt1 : BTree) (root key : Z) (btn : BTreeNode)
    (fuel : nat) :
  chidb_Btree_getNodeByPage bt root = (CHIDB_OK, bt1, Some btn) ->
  n_cells btn = 0 ->
  exists bt',
    chidb_Btree_find (S fuel) bt root key = Some (CHIDB_ENOTFOUND, bt', None) /\
    CHIDB_ENOTFOUND <> CHIDB_EEMPTY /\
    n_mempages (pager bt') = n_mempages (pager bt) /\
    file (pager bt') = file (pager bt).
Proof.
  intros Hget Hn.
  exists (chidb_Btree_freeMemNode bt1 btn).2.
  split; [apply find_no_cells; assumption |].
  split; [discriminate |].
  destruct (getNodeByPage_ok _ _ _ _ Hget) as (Hm & Hf & _).
  unfold chidb_Btree_freeMemNode, chidb_Pager_releaseMemPage.
  cbn [snd pager n_mempages file]. split; [lia | exact Hf].
Qed.

End Find.

(** ** Scenarios *)

Lemma verifyHeader_spec_witness : verifyHeader canonical_header = CHIDB_OK.
Proof.
  destruct (verifyHeader_spec canonical_header) as ((_ & Hback) & _).
  - vm_compute. reflexivity.
  - apply Hback. vm_compute. repeat split.
Defined.

Lemma open_new_file_spec_witness :
  let r := chidb_Btree_open (L := spec_layout) [] in
  r.1 = CHIDB_OK /\ length (file (pager r.2)) = 1024%nat /\
  rd (file (pager r.2)) 100 = 13 /\ get2byte (file (pager r.2)) 104 = 0.
Proof.
  destruct (open_new_file_spec (L := spec_layout) spec_layout_header_ok)
    as (Hrc & Hlen & _ & _ & _ & _ & _ & Htag & Hn & _).
  - vm_compute. discriminate.
  - intros r. split; [exact Hrc |]. split; [exact Hlen |].
    split; [exact Htag | exact Hn].
Defined.

Lemma find_empty_root_witness :
  exists bt',
    chidb_Btree_find (L := spec_layout) 1 new_db 1 1 =
      Some (CHIDB_ENOTFOUND, bt', None) /\
    n_mempages (pager bt') = n_mempages (pager new_db).
Proof.
  pose (g := chidb_Btree_getNodeByPage (L := spec_layout) new_db 1).
  destruct (find_empty_root (L := spec_layout) new_db g.1.2 1 1
              (default fresh_node g.2) 0)
    as (bt' & Hfind & _ & Hheld & _).
  - vm_compute. reflexivity.
  - vm_compute. reflexivity.
  - exists bt'. split; [exact Hfind | exact Hheld].
Defined.

(** [nodeKeyBSearch] always returns: its loop halves a range of at most
    [n_cells] positions and has one more iteration than that to spend. *)
Lemma nodeKeyBSearch_loop_total (fuel : nat) (btc_arr : list BTreeCell)
    (key left right : Z) :
  (Z.to_nat (right - left + 1) < fuel)%nat ->
  is_Some (nodeKeyBSearch_loop fuel btc_arr key left right).
Proof.
  revert left right. induction fuel as [| fuel IH]; intros left right Hfuel.
  - lia.
  - cbn [nodeKeyBSearch_loop].
    destruct (Z.leb_spec left right) as [Hle | Hgt]; [| eexists; reflexivity].
    assert (Hq : 0 <= Z.quot (right - left) 2 <= right - left).
    { rewrite Z.quot_div_nonneg by lia.
      split; [apply Z.div_pos; lia |].
      apply Z.div_le_upper_bound; lia. }
    destruct (_ <? _); [apply IH; lia |].
    destruct (_ >? _); [apply IH; lia |].
    eexists; reflexivity.
Qed.

Lemma nodeKeyBSearch_total {L : Layout} (btn : BTreeNode)
    (btc_arr : list BTreeCell) (key : Z) :
  is_Some (nodeKeyBSearch btn btc_arr key).
Proof.
  unfold nodeKeyBSearch. apply nodeKeyBSearch_loop_total. lia.
Qed.

Section InsertStub.
Context {L : Layout} (Hok : header_layout_ok L).
Hypothesis Hpage :
  CHIDB_FILE_HEADER_LEN + LEAFPG_CELLSOFFSET_OFFSET <= DEFAULT_PAGE_SIZE.

(** C1, evaluated on scenario 2. On the database that [chidb_Btree_open]
    creates, [chidb_Btree_insertInTable] of key 1 with the payload
    "Hard Drive" answers OK and gives back the handle it was given, and the
    search for key 1 that follows answers NOT_FOUND and sets no payload:
    the row was never stored. *)
Theorem insert_then_find_new_file (fuel : nat) :
  let bt := (chidb_Btree_open []).2 in
  let r := chidb_Btree_insertInTable bt 1 1 hard_drive 10 in
  r.1 = CHIDB_OK /\
  r.2 = bt /\
  exists bt',
    chidb_Btree_find (S fuel) r.2 1 1 = Some (CHIDB_ENOTFOUND, bt', None).
Proof.
  intros bt r.
  split; [reflexivity |]. split; [reflexivity |].
  destruct (new_file_root Hok Hpage) as (bt2 & Hget & _ & _ & _ & Hn & _).
  eexists. apply (find_no_cells _ _ _ _ _ _ Hget Hn).
Qed.

End InsertStub.

Lemma insert_then_find_new_file_witness :
  exists bt',
    chidb_Btree_find (L := spec_layout) 1
      (chidb_Btree_insertInTable new_db 1 1
         hard_drive 10).2 1 1
    = Some (CHIDB_ENOTFOUND, bt', None).
Proof.
  destruct (insert_then_find_new_file (L := spec_layout)
              spec_layout_header_ok) with (fuel := 0%nat)
    as (_ & _ & Hfind).
  - vm_compute. discriminate.
  - exact Hfind.
Defined.

(** C2, evaluated on scenario 3. [chidb_Btree_insertInTable] answers OK and
    gives back the handle it was given, whatever the tree holds. On the
    database whose root holds the row of key 1, where the search for key 1
    answers OK with the payload "Hard Drive", inserting key 1 again answers
    OK, not DUPLICATE; the file is unchanged. *)
Theorem insert_duplicate_row :
  (forall bt nroot key data size,
     chidb_Btree_insertInTable bt nroot key data size = (CHIDB_OK, bt)) /\
  (forall fuel,
     chidb_Btree_find (L := spec_layout) (S fuel) db_with_row 1 1 =
       Some (CHIDB_OK, db_with_row, Some (hard_drive, 10))) /\
  chidb_Btree_insertInTable db_with_row 1 1 hard_drive 10
    = (CHIDB_OK, db_with_row).
Proof.
  split; [reflexivity |].
  split; [intros fuel; vm_compute; reflexivity | reflexivity].
Qed.

(** C3, evaluated on scenario 6. With the table of keys 10, 20 and 30 on
    page 1 and the index entries (30, 10), (50, 20) and (70, 30) on page 2,
    the search of the index tree for keyIdx 50 finds the entry, takes its
    keyPk 20 and starts again from the root it was given, the index root,
    where no entry has the key 20: it answers NOT_FOUND and sets no payload.
    The payload "twenty" is what the search of the table tree for key 20
    gives. *)
Theorem find_in_index_tree :
  (forall fuel,
     chidb_Btree_find (L := spec_layout) (S (S fuel)) db_index 2 50 =
       Some (CHIDB_ENOTFOUND, db_index, None)) /\
  (forall fuel,
     chidb_Btree_find (L := spec_layout) (S fuel) db_index 1 20 =
       Some (CHIDB_OK, db_index, Some (c_str "twenty", 6))).
Proof.
  split; intros fuel; vm_compute; reflexivity.
Qed.

(** C4, evaluated on each variant. [getCellSize] is the header size plus
    the payload length on a table-leaf cell and a constant on an
    index-internal cell; on a table-internal cell and on an index-leaf cell
    it adds to the constant of the variant what it reads in
    [fields.tableLeaf.data_size]. A table-internal cell in which that reads
    3 has size 11 in the layout of the specification, where
    [TABLEINTCELL_SIZE] is 8. *)
Theorem getCellSize_by_type :
  (forall (L : Layout) key f,
     getCellSize (BTreeCell.mk PGTYPE_TABLE_LEAF key f) =
       TABLELEAFCELL_SIZE_WITHOUTDATA + tableLeaf_data_size f /\
     getCellSize (BTreeCell.mk PGTYPE_INDEX_INTERNAL key f) =
       INDEXINTCELL_SIZE /\
     getCellSize (BTreeCell.mk PGTYPE_TABLE_INTERNAL key f) =
       TABLEINTCELL_SIZE + tableLeaf_data_size f /\
     getCellSize (BTreeCell.mk PGTYPE_INDEX_LEAF key f) =
       INDEXLEAFCELL_SIZE + tableLeaf_data_size f) /\
  getCellSize (L := spec_layout) internal_cell_3 = 11 /\
  TABLEINTCELL_SIZE (Layout := spec_layout) = 8.
Proof.
  split; [intros L key f; repeat split | split; reflexivity].
Qed.
